(** * Deep Q-network architectures: a shallow embedding of [common/models.py]

    The four classes of [common/models.py] ([VanillaDQN], [DuelingDQN],
    [DistributionalDQN], [RecurrentDQN]) are embedded together with the
    tensor-library primitives they call.  Conventions:

    - a Python call either returns a value or raises: [Result A];
    - a tensor is a shape together with its entries in row-major order;
      entries are idealised as real numbers (rounding of tensor entries is
      not tracked);
    - Python [float] scalars that decide a *discrete* outcome (the length of
      the distributional support) are binary64 numbers, computed with the
      kernel's primitive floats;
    - a method is a function of the object ([self]) that returns its result
      together with the object after the call. *)

From Stdlib Require Import String.
From Stdlib Require Import List Arith Lia ZArith Reals Lra Floats Bool.
Import ListNotations.

Set Implicit Arguments.

(** ** Python results *)

Inductive exn : Set :=
| TypeError | NameError | AttributeError | IndexError
| ZeroDivisionError | RuntimeError.

Inductive Result (A : Type) : Type :=
| Ok (a : A)
| Err (e : exn).
Arguments Ok {A} a.
Arguments Err {A} e.

Definition bind {A B : Type} (r : Result A) (k : A -> Result B) : Result B :=
  match r with
  | Ok a => k a
  | Err e => Err e
  end.

Notation "x <- e ;; k" := (bind e (fun x => k))
  (at level 61, e at next level, right associativity).

Definition is_ok {A : Type} (r : Result A) : bool :=
  match r with Ok _ => true | Err _ => false end.

(** Names bound at module level by the three [import] lines and the four
    [class] statements; any other bare name raises [NameError]. *)
Definition module_globals : list string :=
  ["torch"; "nn"; "F";
   "VanillaDQN"; "DuelingDQN"; "DistributionalDQN"; "RecurrentDQN"]%string.

Definition global (name : string) : Result unit :=
  if existsb (String.eqb name) module_globals then Ok tt else Err NameError.

(** Attribute lookup of a method on an instance of a class that defines
    [methods]. *)
Definition getattr (methods : list string) (name : string) : Result unit :=
  if existsb (String.eqb name) methods then Ok tt else Err AttributeError.

(** A call of a method that takes one positional argument besides [self]. *)
Definition call1 {A B : Type} (f : A -> Result B) (args : list A) : Result B :=
  match args with
  | [a] => f a
  | _ => Err TypeError
  end.

(** [t[0]] for a tuple of ints. *)
Definition item0 (l : list nat) : Result nat :=
  match l with
  | x :: _ => Ok x
  | [] => Err IndexError
  end.

(** ** Methods: state passing over [self] *)

Definition Method (S A : Type) : Type := S -> Result (A * S).

Definition mret {S A : Type} (a : A) : Method S A := fun s => Ok (a, s).

Definition mbind {S A B : Type} (m : Method S A) (k : A -> Method S B)
  : Method S B :=
  fun s => match m s with
           | Ok (a, s') => k a s'
           | Err e => Err e
           end.

(** Reading an attribute of [self]. *)
Definition attr {S A : Type} (f : S -> A) : Method S A := fun s => Ok (f s, s).

(** A library call: it may raise, it does not touch [self]. *)
Definition lift {S A : Type} (r : Result A) : Method S A :=
  fun s => match r with
           | Ok a => Ok (a, s)
           | Err e => Err e
           end.

Notation "x <~ e ;; k" := (mbind e (fun x => k))
  (at level 61, e at next level, right associativity).

(** The value a method call returns, the object forgotten. *)
Definition returns {S A : Type} (m : Method S A) (s : S) : Result A :=
  match m s with
  | Ok (a, _) => Ok a
  | Err e => Err e
  end.

(** ** Tensors *)

Record Tensor : Type := mkTensor { shape : list nat; data : list R }.

Definition numel (s : list nat) : nat := fold_right Nat.mul 1 s.

Definition tabulate {A : Type} (n : nat) (f : nat -> A) : list A :=
  map f (seq 0 n).

(** Entry [i] of the row-major storage. *)
Definition rd (t : Tensor) (i : nat) : R := nth i (data t) 0%R.

Fixpoint rsum (n : nat) (f : nat -> R) : R :=
  match n with
  | O => 0%R
  | S k => (rsum k f + f k)%R
  end.

Definition wf (t : Tensor) : Prop := length (data t) = numel (shape t).

(** [t.size(d)] *)
Definition size (t : Tensor) (d : nat) : Result nat :=
  match nth_error (shape t) d with
  | Some n => Ok n
  | None => Err IndexError
  end.

(** [t.view(...)]: an argument is a size or [-1] ([None]). *)
Definition known (spec : list (option nat)) : nat :=
  fold_right (fun d acc => match d with Some n => n * acc | None => acc end)
             1 spec.

Definition holes (spec : list (option nat)) : nat :=
  length (filter (fun d => match d with None => true | Some _ => false end)
                 spec).

Definition fill (q : nat) (d : option nat) : nat :=
  match d with Some n => n | None => q end.

Definition view (t : Tensor) (spec : list (option nat)) : Result Tensor :=
  let n := numel (shape t) in
  let p := known spec in
  match holes spec with
  | 0 => if p =? n then Ok (mkTensor (map (fill 0) spec) (data t))
         else Err RuntimeError
  | 1 => if p =? 0 then Err RuntimeError
         else if n mod p =? 0
              then Ok (mkTensor (map (fill (n / p)) spec) (data t))
              else Err RuntimeError
  | _ => Err RuntimeError
  end.

(** ** Layers *)

(** The values the library's initialiser draws for the parameters are not
    fixed by the program: [theta] supplies them, [off] counts how many have
    been drawn. *)
Section Layers.

Variable theta : nat -> R.

Definition fresh (off : nat) (s : list nat) : Tensor :=
  mkTensor s (tabulate (numel s) (fun k => theta (off + k))).

(** [nn.Linear(in_features, out_features)] *)
Record Linear : Type := mkLinearRec {
  in_features : nat;
  out_features : nat;
  weight : Tensor;   (* out_features x in_features *)
  bias : Tensor      (* out_features *)
}.

Definition mkLinear (off i o : nat) : Linear :=
  mkLinearRec i o (fresh off [o; i]) (fresh (off + o * i) [o]).

Definition linear_params (i o : nat) : nat := o * i + o.

(** [x @ weight.T + bias], over the last dimension of [x]. *)
Definition linear_entry (l : Linear) (x : Tensor) (i : nat) : R :=
  let r := i / out_features l in
  let o := i mod out_features l in
  (rd (bias l) o
   + rsum (in_features l)
       (fun k => rd x (r * in_features l + k)
                 * rd (weight l) (o * in_features l + k)))%R.

Definition linear_forward (l : Linear) (x : Tensor) : Result Tensor :=
  match rev (shape x) with
  | [] => Err RuntimeError
  | d :: rpre =>
      if d =? in_features l
      then Ok (mkTensor (rev (out_features l :: rpre))
                 (tabulate (numel rpre * out_features l) (linear_entry l x)))
      else Err RuntimeError
  end.

(** [nn.ReLU()] *)
Definition relu (x : Tensor) : Tensor :=
  mkTensor (shape x) (map (Rmax 0) (data x)).

(** [nn.Conv2d(in_channels, out_channels, kernel_size, stride)], square
    kernel, no padding, on a batched input (N, C, H, W). *)
Record Conv2d : Type := mkConv2dRec {
  in_channels : nat;
  out_channels : nat;
  kernel_size : nat;
  stride : nat;
  cweight : Tensor;  (* out x in x k x k *)
  cbias : Tensor     (* out *)
}.

Definition mkConv2d (off i o k s : nat) : Conv2d :=
  mkConv2dRec i o k s (fresh off [o; i; k; k]) (fresh (off + o * i * k * k) [o]).

Definition conv_params (i o k : nat) : nat := o * i * k * k + o.

Definition conv_out (n k s : nat) : nat := (n - k) / s + 1.

Definition conv2d_entry (c : Conv2d) (x : Tensor) (H W Ho Wo : nat) (i : nat)
  : R :=
  let C := in_channels c in
  let k := kernel_size c in
  let s := stride c in
  let j := i mod Wo in
  let i1 := i / Wo in
  let r := i1 mod Ho in
  let i2 := i1 / Ho in
  let o := i2 mod out_channels c in
  let n := i2 / out_channels c in
  (rd (cbias c) o
   + rsum C (fun ch =>
       rsum k (fun di =>
         rsum k (fun dj =>
           rd x (((n * C + ch) * H + (r * s + di)) * W + (j * s + dj))
           * rd (cweight c) (((o * C + ch) * k + di) * k + dj)))))%R.

Definition conv2d_forward (c : Conv2d) (x : Tensor) : Result Tensor :=
  match shape x with
  | [N; C; H; W] =>
      if (C =? in_channels c) && (0 <? stride c)
         && (kernel_size c <=? H) && (kernel_size c <=? W)
      then
        let Ho := conv_out H (kernel_size c) (stride c) in
        let Wo := conv_out W (kernel_size c) (stride c) in
        Ok (mkTensor [N; out_channels c; Ho; Wo]
              (tabulate (N * out_channels c * Ho * Wo)
                        (conv2d_entry c x H W Ho Wo)))
      else Err RuntimeError
  | _ => Err RuntimeError
  end.

(** [nn.Sequential(...)] *)
Inductive Layer : Type :=
| LinearL (l : Linear)
| ReLUL
| Conv2dL (c : Conv2d).

Definition layer_forward (l : Layer) (x : Tensor) : Result Tensor :=
  match l with
  | LinearL l => linear_forward l x
  | ReLUL => Ok (relu x)
  | Conv2dL c => conv2d_forward c x
  end.

Fixpoint sequential_forward (ls : list Layer) (x : Tensor) : Result Tensor :=
  match ls with
  | [] => Ok x
  | l :: rest => y <- layer_forward l x ;; sequential_forward rest y
  end.

(** Calling an attribute that holds either a module or [None]. *)
Definition call_module (m : option (list Layer)) (x : Tensor)
  : Result Tensor :=
  match m with
  | Some ls => sequential_forward ls x
  | None => Err TypeError
  end.

End Layers.

(** ** Pointwise arithmetic with broadcasting *)

(** Shapes are aligned from the last dimension; both functions work on
    reversed shapes.  [bshape] is the broadcast shape, [bidx rs rt i] the
    storage index, in an operand of (reversed) shape [rt], of entry [i] of
    the result of (reversed) shape [rs]. *)
Fixpoint bshape (ra rb : list nat) : Result (list nat) :=
  match ra, rb with
  | [], _ => Ok rb
  | _, [] => Ok ra
  | a :: ra', b :: rb' =>
      if a =? b then (r <- bshape ra' rb' ;; Ok (a :: r))
      else if a =? 1 then (r <- bshape ra' rb' ;; Ok (b :: r))
      else if b =? 1 then (r <- bshape ra' rb' ;; Ok (a :: r))
      else Err RuntimeError
  end.

Fixpoint bidx (rs rt : list nat) (i : nat) : nat :=
  match rs, rt with
  | d :: rs', e :: rt' =>
      (if e =? 1 then 0 else i mod d) + e * bidx rs' rt' (i / d)
  | _, _ => 0
  end.

Definition pointwise (f : R -> R -> R) (x y : Tensor) : Result Tensor :=
  rs <- bshape (rev (shape x)) (rev (shape y)) ;;
  Ok (mkTensor (rev rs)
        (tabulate (numel rs)
           (fun i => f (rd x (bidx rs (rev (shape x)) i))
                       (rd y (bidx rs (rev (shape y)) i))))).

Definition tadd : Tensor -> Tensor -> Result Tensor := pointwise Rplus.
Definition tsub : Tensor -> Tensor -> Result Tensor := pointwise Rminus.
Definition tmul : Tensor -> Tensor -> Result Tensor := pointwise Rmult.

(** ** Reductions and normalisation *)

(** [t.mean()]: the mean of all entries, a 0-dimensional tensor. *)
Definition mean (x : Tensor) : Tensor :=
  mkTensor [] [(rsum (numel (shape x)) (rd x) / INR (numel (shape x)))%R].

(** [torch.sum(t, dim=dim)] *)
Definition sum_dim (x : Tensor) (dim : nat) : Result Tensor :=
  match nth_error (shape x) dim with
  | None => Err IndexError
  | Some d =>
      let outer := numel (firstn dim (shape x)) in
      let inner := numel (skipn (S dim) (shape x)) in
      Ok (mkTensor (firstn dim (shape x) ++ skipn (S dim) (shape x))
            (tabulate (outer * inner)
               (fun i => rsum d (fun j =>
                  rd x ((i / inner * d + j) * inner + i mod inner)))))
  end.

(** [nn.Softmax(dim=dim)] applied to a tensor: every entry is the
    exponential of the input entry divided by the sum of the exponentials
    along dimension [dim]. *)
Definition softmax_forward (dim : nat) (x : Tensor) : Result Tensor :=
  match nth_error (shape x) dim with
  | None => Err IndexError
  | Some d =>
      let inner := numel (skipn (S dim) (shape x)) in
      Ok (mkTensor (shape x)
            (tabulate (numel (shape x))
               (fun i =>
                  (exp (rd x i)
                   / rsum d (fun j =>
                       exp (rd x ((i / (d * inner) * d + j) * inner
                                  + i mod inner))))%R)))
  end.

(** What a Python variable may hold here: a tensor or a tuple. *)
Inductive pyval : Type :=
| VTensor (t : Tensor)
| VTuple (items : list Tensor).

(** [nn.Softmax.forward(input)] evaluates [input.softmax(dim)]: a tuple has
    no such attribute. *)
Definition softmax_call (dim : nat) (v : pyval) : Result Tensor :=
  match v with
  | VTensor t => softmax_forward dim t
  | VTuple _ => Err AttributeError
  end.

(** ** The gated recurrent unit cell *)

Definition sigmoid (x : R) : R := (1 / (1 + exp (- x)))%R.

(** [nn.GRUCell(input_size, hidden_size)] *)
Record GRUCell : Type := mkGRUCellRec {
  input_size : nat;
  hidden_size : nat;
  weight_ih : Tensor;  (* 3*hidden x input: reset, update, new *)
  weight_hh : Tensor;  (* 3*hidden x hidden *)
  bias_ih : Tensor;    (* 3*hidden *)
  bias_hh : Tensor     (* 3*hidden *)
}.

Section GRU.

Variable theta : nat -> R.

Definition mkGRUCell (off i h : nat) : GRUCell :=
  mkGRUCellRec i h
    (fresh theta off [3 * h; i])
    (fresh theta (off + 3 * h * i) [3 * h; h])
    (fresh theta (off + 3 * h * i + 3 * h * h) [3 * h])
    (fresh theta (off + 3 * h * i + 3 * h * h + 3 * h) [3 * h]).

End GRU.

(** Gate [g] (0 reset, 1 update, 2 new) of row [n], unit [u]: the input
    part and the hidden part. *)
Definition gate_i (c : GRUCell) (x : Tensor) (g n u : nat) : R :=
  let row := g * hidden_size c + u in
  (rd (bias_ih c) row
   + rsum (input_size c)
       (fun k => rd x (n * input_size c + k)
                 * rd (weight_ih c) (row * input_size c + k)))%R.

Definition gate_h (c : GRUCell) (h : Tensor) (g n u : nat) : R :=
  let row := g * hidden_size c + u in
  (rd (bias_hh c) row
   + rsum (hidden_size c)
       (fun k => rd h (n * hidden_size c + k)
                 * rd (weight_hh c) (row * hidden_size c + k)))%R.

Definition gru_entry (c : GRUCell) (x h : Tensor) (i : nat) : R :=
  let n := i / hidden_size c in
  let u := i mod hidden_size c in
  let r := sigmoid (gate_i c x 0 n u + gate_h c h 0 n u) in
  let z := sigmoid (gate_i c x 1 n u + gate_h c h 1 n u) in
  let g := tanh (gate_i c x 2 n u + r * gate_h c h 2 n u) in
  ((1 - z) * g + z * rd h i)%R.

Definition gru_forward (c : GRUCell) (x h : Tensor) : Result Tensor :=
  match shape x, shape h with
  | [N; D], [M; K] =>
      if (D =? input_size c) && (K =? hidden_size c) && (N =? M)
      then Ok (mkTensor [N; hidden_size c]
                 (tabulate (N * hidden_size c) (gru_entry c x h)))
      else Err RuntimeError
  | _, _ => Err RuntimeError
  end.

(** ** Python floats and [torch.arange] *)

(** [float(z)] for a Python int. *)
Definition Z2float (z : Z) : float :=
  if (z <? 0)%Z
  then PrimFloat.opp (PrimFloat.of_uint63 (Uint63.of_Z (- z)))
  else PrimFloat.of_uint63 (Uint63.of_Z z).

(** The integer [ceil f] of a finite binary64 number. *)
Definition float_ceil (f : float) : option Z :=
  match Prim2SF f with
  | S754_zero _ => Some 0%Z
  | S754_finite s m e =>
      let v := if s then Zneg m else Zpos m in
      Some (if (0 <=? e)%Z then v * 2 ^ e
            else - ((- v) / 2 ^ (- e)))%Z
  | _ => None
  end.

(** The real number a finite binary64 number stands for. *)
Definition F2R (f : float) : R :=
  match Prim2SF f with
  | S754_finite s m e =>
      (IZR (if s then Zneg m else Zpos m) * powerRZ 2 e)%R
  | _ => 0%R
  end.

(** [torch.arange(start, end, step)] with float arguments: the number of
    entries is [ceil((end - start) / step)] computed in binary64; entry [i]
    is [start + i * step]. *)
Definition arange_len (start stop step : float) : Result nat :=
  if negb (PrimFloat.ltb 0 step || PrimFloat.ltb step 0)
  then Err RuntimeError
  else if negb (PrimFloat.is_finite start && PrimFloat.is_finite stop)
  then Err RuntimeError
  else if negb ((PrimFloat.ltb 0 step && PrimFloat.leb start stop)
                || (PrimFloat.ltb step 0 && PrimFloat.leb stop start))
  then Err RuntimeError
  else match float_ceil (PrimFloat.div (PrimFloat.sub stop start) step) with
       | Some n => Ok (Z.to_nat n)
       | None => Err RuntimeError
       end.

Definition arange (start stop step : float) : Result Tensor :=
  n <- arange_len start stop step ;;
  Ok (mkTensor [n]
        (tabulate n (fun i => (F2R start + INR i * F2R step)%R))).

(** [a / b] for Python floats. *)
Definition float_div (a b : float) : Result float :=
  if PrimFloat.eqb b 0 then Err ZeroDivisionError else Ok (PrimFloat.div a b).

(** ** The convolutional feature extractor

    The body of [conv_layer], repeated in each of the four classes: three
    convolutions, each followed by a rectifier. *)
Definition conv_stack (theta : nat -> R) (off c0 : nat) : list Layer :=
  [Conv2dL (mkConv2d theta off c0 32 8 4);
   ReLUL;
   Conv2dL (mkConv2d theta (off + conv_params c0 32 8) 32 64 4 2);
   ReLUL;
   Conv2dL (mkConv2d theta (off + conv_params c0 32 8 + conv_params 32 64 4)
              64 64 3 1);
   ReLUL].

Definition conv_stack_params (c0 : nat) : nat :=
  conv_params c0 32 8 + conv_params 32 64 4 + conv_params 64 64 3.

(** [torch.zeros] of shape [s] *)
Definition zeros (s : list nat) : Tensor := mkTensor s (repeat 0%R (numel s)).

(** The body shared by the three [feature_size] definitions:
    [self.features(autograd.Variable(torch.zeros(1, *input_dim)))
       .view(1, -1).size(1)].
    The callee is evaluated first, then its argument, whose first name is
    [autograd]. *)
Definition feature_size_body (features : option (list Layer))
  (input_dim : list nat) : Result nat :=
  _ <- global "autograd" ;;
  y <- call_module features (zeros (1 :: input_dim)) ;;
  v <- view y [Some 1; None] ;;
  size v 1.

(** * class VanillaDQN *)
Module VanillaDQN.

Record t : Type := mk {
  input_dim : list nat;
  output_dim : nat;
  use_conv : bool;
  features : option (list Layer);
  fc : list Layer
}.

Definition conv_layer (theta : nat -> R) (off : nat) (input_dim : list nat)
  : Result (list Layer) :=
  c0 <- item0 input_dim ;;
  Ok (conv_stack theta off c0).

Definition feature_size (features : option (list Layer))
  (args : list (list nat)) : Result nat :=
  call1 (feature_size_body features) args.

Definition init (theta : nat -> R) (input_dim : list nat) (output_dim : nat)
  (use_conv : bool) : Result t :=
  features <- (if use_conv
               then (c <- conv_layer theta 0 input_dim ;; Ok (Some c))
               else Ok None) ;;
  let off := if use_conv then conv_stack_params (hd 0 input_dim) else 0 in
  d <- (if use_conv then feature_size features [] else item0 input_dim) ;;
  Ok (mk input_dim output_dim use_conv features
        [LinearL (mkLinear theta off d 128);
         ReLUL;
         LinearL (mkLinear theta (off + linear_params d 128) 128 256);
         ReLUL;
         LinearL (mkLinear theta
                    (off + linear_params d 128 + linear_params 128 256)
                    256 output_dim)]).

Definition conv_features (state : Tensor) : Method t Tensor :=
  f <~ attr features ;;
  feats <~ lift (call_module f state) ;;
  n <~ lift (size feats 0) ;;
  lift (view feats [Some n; None]).

Definition forward (state : Tensor) : Method t Tensor :=
  uc <~ attr use_conv ;;
  feats <~ (if uc then conv_features state else mret state) ;;
  head <~ attr fc ;;
  qvals <~ lift (sequential_forward head state) ;;
  mret qvals.

End VanillaDQN.

(** * class DuelingDQN *)
Module DuelingDQN.

Record t : Type := mk {
  input_dim : list nat;
  output_dim : nat;
  use_conv : bool;
  features : list Layer;
  value_stream : list Layer;
  advantage_stream : list Layer
}.

Definition conv_layer (theta : nat -> R) (off : nat) (input_dim : list nat)
  : Result (list Layer) :=
  c0 <- item0 input_dim ;;
  Ok (conv_stack theta off c0).

(** Defined by the class, with its [input_dim] parameter; no method of the
    class calls it. *)
Definition feature_size (features : list Layer) (args : list (list nat))
  : Result nat :=
  call1 (feature_size_body (Some features)) args.

Definition init (theta : nat -> R) (input_dim : list nat) (output_dim : nat)
  (use_conv : bool) : Result t :=
  features <- (if use_conv
               then conv_layer theta 0 input_dim
               else (d <- item0 input_dim ;;
                     Ok [LinearL (mkLinear theta 0 d 128); ReLUL])) ;;
  let off := if use_conv then conv_stack_params (hd 0 input_dim)
             else linear_params (hd 0 input_dim) 128 in
  Ok (mk input_dim output_dim use_conv features
        [LinearL (mkLinear theta off 128 128);
         ReLUL;
         LinearL (mkLinear theta (off + linear_params 128 128) 128 1)]
        [LinearL (mkLinear theta
                    (off + linear_params 128 128 + linear_params 128 1)
                    128 128);
         ReLUL;
         LinearL (mkLinear theta
                    (off + linear_params 128 128 + linear_params 128 1
                     + linear_params 128 128)
                    128 output_dim)]).

Definition conv_features (state : Tensor) : Method t Tensor :=
  f <~ attr features ;;
  feats <~ lift (sequential_forward f state) ;;
  n <~ lift (size feats 0) ;;
  lift (view feats [Some n; None]).

(** [values + (advantages - advantages.mean())] *)
Definition combine (values advantages : Tensor) : Result Tensor :=
  centred <- tsub advantages (mean advantages) ;;
  tadd values centred.

Definition forward (state : Tensor) : Method t Tensor :=
  uc <~ attr use_conv ;;
  feats <~ (if uc then conv_features state
            else (f <~ attr features ;; lift (sequential_forward f state))) ;;
  vs <~ attr value_stream ;;
  values <~ lift (sequential_forward vs feats) ;;
  ads <~ attr advantage_stream ;;
  advantages <~ lift (sequential_forward ads feats) ;;
  qvals <~ lift (combine values advantages) ;;
  mret qvals.

End DuelingDQN.

(** * class DistributionalDQN *)
Module DistributionalDQN.

Record t : Type := mk {
  input_dim : list nat;
  output_dim : nat;
  n_atoms : nat;
  use_conv : bool;
  Vmin : float;
  Vmax : float;
  delta_z : float;
  support : Tensor;
  features : option (list Layer);
  fc : list Layer;
  softmax : nat        (* nn.Softmax(dim=1) *)
}.

(** The methods the class defines; there is no [feature_size]. *)
Definition methods : list string :=
  ["__init__"; "forward"; "get_q_vals"; "conv_features"; "conv_layer"]%string.

(** The stack is built and dropped: the function has no [return]. *)
Definition conv_layer (theta : nat -> R) (off : nat) (input_dim : list nat)
  : Result (option (list Layer)) :=
  c0 <- item0 input_dim ;;
  let conv := conv_stack theta off c0 in
  Ok None.

Definition init (theta : nat -> R) (input_dim : list nat) (output_dim : nat)
  (use_conv : bool) (n_atoms : nat) (Vmin Vmax : float) : Result t :=
  dz <- float_div (PrimFloat.sub Vmax Vmin)
                  (Z2float (Z.of_nat n_atoms - 1)) ;;
  sup <- arange Vmin (PrimFloat.add Vmax dz) dz ;;
  features <- (if use_conv then conv_layer theta 0 input_dim else Ok None) ;;
  let off := if use_conv then conv_stack_params (hd 0 input_dim) else 0 in
  d <- (if use_conv
        then (_ <- getattr methods "feature_size" ;; Err TypeError)
        else item0 input_dim) ;;
  Ok (mk input_dim output_dim n_atoms use_conv Vmin Vmax dz sup features
        [LinearL (mkLinear theta off d 128);
         ReLUL;
         LinearL (mkLinear theta (off + linear_params d 128) 128 256);
         ReLUL;
         LinearL (mkLinear theta
                    (off + linear_params d 128 + linear_params 128 256)
                    256 (output_dim * n_atoms))]
        1).

Definition conv_features (state : Tensor) : Method t Tensor :=
  f <~ attr features ;;
  feats <~ lift (call_module f state) ;;
  n <~ lift (size feats 0) ;;
  lift (view feats [Some n; None]).

Definition forward (state : Tensor) : Method t (Tensor * Tensor) :=
  batch_size <~ lift (size state 0) ;;
  uc <~ attr use_conv ;;
  feats <~ (if uc
            then lift (_ <- global "conv_features" ;; Err NameError)
            else mret state) ;;
  head <~ attr fc ;;
  y <~ lift (sequential_forward head state) ;;
  n <~ attr n_atoms ;;
  dist <~ lift (view y [Some batch_size; None; Some n]) ;;
  sm <~ attr softmax ;;
  probs <~ lift (softmax_call sm (VTensor dist)) ;;
  sup <~ attr support ;;
  weighted <~ lift (tmul probs sup) ;;
  Qvals <~ lift (sum_dim weighted 2) ;;
  mret (dist, Qvals).

Definition get_q_vals (state : Tensor) : Method t (pyval * Tensor) :=
  r <~ forward state ;;
  let dist := VTuple [fst r; snd r] in
  sm <~ attr softmax ;;
  probs <~ lift (softmax_call sm dist) ;;
  sup <~ attr support ;;
  weights <~ lift (tmul probs sup) ;;
  qvals <~ lift (sum_dim weights 2) ;;
  mret (dist, qvals).

End DistributionalDQN.

(** * class RecurrentDQN *)
Module RecurrentDQN.

Record t : Type := mk {
  input_dim : list nat;
  gru_size : nat;
  output_dim : nat;
  use_conv : bool;
  features : option (list Layer);
  linear1 : Linear;
  gru : GRUCell;
  linear2 : Linear
}.

Definition conv_layer (theta : nat -> R) (off : nat) (input_dim : list nat)
  : Result (list Layer) :=
  c0 <- item0 input_dim ;;
  Ok (conv_stack theta off c0).

Definition feature_size (features : option (list Layer))
  (args : list (list nat)) : Result nat :=
  call1 (feature_size_body features) args.

Definition init (theta : nat -> R) (input_dim : list nat)
  (gru_size output_dim : nat) (use_conv : bool) : Result t :=
  features <- (if use_conv
               then (c <- call1 (conv_layer theta 0) [] ;; Ok (Some c))
               else Ok None) ;;
  let off := if use_conv then conv_stack_params (hd 0 input_dim) else 0 in
  d <- (if use_conv then feature_size features [] else item0 input_dim) ;;
  Ok (mk input_dim gru_size output_dim use_conv features
        (mkLinear theta off d gru_size)
        (mkGRUCell theta (off + linear_params d gru_size) gru_size gru_size)
        (mkLinear theta
           (off + linear_params d gru_size
            + (3 * gru_size * gru_size + 3 * gru_size * gru_size
               + 3 * gru_size + 3 * gru_size))
           gru_size output_dim)).

Definition conv_features (state : Tensor) : Method t Tensor :=
  f <~ attr features ;;
  feats <~ lift (call_module f state) ;;
  n <~ lift (size feats 0) ;;
  lift (view feats [Some n; None]).

Definition forward (state_input hidden_state : Tensor)
  : Method t (Tensor * Tensor) :=
  uc <~ attr use_conv ;;
  feats <~ (if uc then conv_features state_input else mret state_input) ;;
  l1 <~ attr linear1 ;;
  y <~ lift (linear_forward l1 feats) ;;
  let x := relu y in
  gs <~ attr gru_size ;;
  h_in <~ lift (view hidden_state [None; Some gs]) ;;
  cell <~ attr gru ;;
  h <~ lift (gru_forward cell x h_in) ;;
  l2 <~ attr linear2 ;;
  q <~ lift (linear_forward l2 h) ;;
  mret (q, h).

Definition init_hidden : Method t Tensor :=
  gs <~ attr gru_size ;;
  mret (zeros [1; gs]).

End RecurrentDQN.

(** * Notions used in the statements *)

(** A method is read-only when the object it returns is the object it was
    called on. *)
Definition readonly {S A : Type} (mth : Method S A) : Prop :=
  forall s a s', mth s = Ok (a, s') -> s' = s.

(** The tensor [nn.Linear] produces on an input of shape [pre ++ [in]]. *)
Definition linear_out (l : Linear) (x : Tensor) (pre : list nat) : Tensor :=
  mkTensor (pre ++ [out_features l])
    (tabulate (numel pre * out_features l) (linear_entry l x)).

(** Width of the last linear layer of a [Sequential]. *)
Fixpoint head_width (ls : list Layer) : option nat :=
  match ls with
  | [] => None
  | l :: rest =>
      match head_width rest with
      | Some w => Some w
      | None => match l with
                | LinearL l => Some (out_features l)
                | _ => None
                end
      end
  end.

(** [torch.cat((a, b), dim=0)] for two batches of rows of the same width. *)
Definition cat0 (a b : Tensor) : Tensor :=
  match shape a, shape b with
  | n :: s, n' :: _ => mkTensor (n + n' :: s) (data a ++ data b)
  | _, _ => a
  end.

(** A linear layer whose weights all equal [c] and whose biases all equal
    [b]. *)
Definition const_linear (i o : nat) (c b : R) : Linear :=
  mkLinearRec i o (mkTensor [o; i] (repeat c (o * i)))
                  (mkTensor [o] (repeat b o)).

(** A batch of [N] rows of width [d]; every entry of row [n] is [f n]. *)
Definition rows (N d : nat) (f : nat -> R) : Tensor :=
  mkTensor [N; d] (tabulate (N * d) (fun i => f (i / d))).

(** What the dueling network extracts from a state: the first statement of
    [DuelingDQN.forward]. *)
Definition dueling_features (m : DuelingDQN.t) (state : Tensor)
  : Result Tensor :=
  returns (if DuelingDQN.use_conv m
           then DuelingDQN.conv_features state
           else (f <~ attr DuelingDQN.features ;;
                 lift (sequential_forward f state))) m.

(** A dueling network on one-dimensional observations with a single
    action.  The feature layer copies the observation into 128 features, the
    value stream is zero, the advantage stream averages the features. *)
Definition dueling_example : DuelingDQN.t :=
  DuelingDQN.mk [1] 1 false
    [LinearL (const_linear 1 128 1 0); ReLUL]
    [LinearL (const_linear 128 128 0 0); ReLUL;
     LinearL (const_linear 128 1 0 0)]
    [LinearL (const_linear 128 128 (/ 128) 0); ReLUL;
     LinearL (const_linear 128 1 (/ 128) 0)].

(** A batch holding the single observation [v]. *)
Definition obs (v : R) : Tensor := mkTensor [1; 1] [v].

(** The observations 0 and 2, as the rows of one batch. *)
Definition two_obs (n : nat) : R := nth n [0%R; 2%R] 0%R.

(** Height (or width) left by the three convolutions, and whether an
    input of that height (or width) is large enough for each of them. *)
Definition feature_hw (n : nat) : nat :=
  conv_out (conv_out (conv_out n 8 4) 4 2) 3 1.

Definition conv_fits (n : nat) : bool :=
  (8 <=? n) && (4 <=? conv_out n 8 4)
  && (3 <=? conv_out (conv_out n 8 4) 4 2).

(** The tensor [nn.Conv2d] produces on an input (N, C, H, W). *)
Definition conv2d_out (c : Conv2d) (x : Tensor) (N H W : nat) : Tensor :=
  let Ho := conv_out H (kernel_size c) (stride c) in
  let Wo := conv_out W (kernel_size c) (stride c) in
  mkTensor [N; out_channels c; Ho; Wo]
    (tabulate (N * out_channels c * Ho * Wo) (conv2d_entry c x H W Ho Wo)).

(** A vanilla network switched to convolutional mode after construction:
    one input channel, a head reading rows of width 36. *)
Definition vanilla_conv_example : VanillaDQN.t :=
  VanillaDQN.mk [36] 2 true
    (Some (conv_stack (fun _ => 0%R) 0 1))
    [LinearL (const_linear 36 128 0 0); ReLUL;
     LinearL (const_linear 128 256 0 0); ReLUL;
     LinearL (const_linear 256 2 0 1)].

(** The tensor a three-layer head produces on a batch (N, d). *)
Definition mlp_out (l1 l2 l3 : Linear) (x : Tensor) (N : nat) : Tensor :=
  linear_out l3 (relu (linear_out l2 (relu (linear_out l1 x [N])) [N])) [N].

(** The head built by the constructors of [VanillaDQN] and
    [DistributionalDQN] without convolution: input width [d], output width
    [w]. *)
Definition fresh_head (theta : nat -> R) (d w : nat) : list Layer :=
  [LinearL (mkLinear theta 0 d 128);
   ReLUL;
   LinearL (mkLinear theta (0 + linear_params d 128) 128 256);
   ReLUL;
   LinearL (mkLinear theta (0 + linear_params d 128 + linear_params 128 256)
              256 w)].

(** The support the distributional constructor computes when
    [torch.arange] yields [k] entries. *)
Definition support_of (Vmin dz : float) (k : nat) : Tensor :=
  mkTensor [k] (tabulate k (fun i => (F2R Vmin + INR i * F2R dz)%R)).

(** The distributional network [DistributionalDQN((1,), 1, use_conv=False,
    n_atoms=2, Vmin=0., Vmax=1.)], every parameter of its head equal
    to -1. *)
Definition distributional_example : DistributionalDQN.t :=
  DistributionalDQN.mk [1] 1 2 false 0%float 1%float 1%float
    (support_of 0%float 1%float 2) None
    (fresh_head (fun _ => (-1)%R) 1 (1 * 2)) 1.

(** The model the recurrent constructor builds without convolution. *)
Definition recurrent_fresh (theta : nat -> R) (d : nat) (rest : list nat)
  (gs out : nat) : RecurrentDQN.t :=
  RecurrentDQN.mk (d :: rest) gs out false None
    (mkLinear theta 0 d gs)
    (mkGRUCell theta (0 + linear_params d gs) gs gs)
    (mkLinear theta
       (0 + linear_params d gs
        + (3 * gs * gs + 3 * gs * gs + 3 * gs + 3 * gs))
       gs out).

(** The two streams the dueling constructor builds, their parameters
    drawn from position [off] on. *)
Definition value_fresh (theta : nat -> R) (off : nat) : list Layer :=
  [LinearL (mkLinear theta off 128 128);
   ReLUL;
   LinearL (mkLinear theta (off + linear_params 128 128) 128 1)].

Definition advantage_fresh (theta : nat -> R) (off out : nat) : list Layer :=
  [LinearL (mkLinear theta
              (off + linear_params 128 128 + linear_params 128 1) 128 128);
   ReLUL;
   LinearL (mkLinear theta
              (off + linear_params 128 128 + linear_params 128 1
               + linear_params 128 128)
              128 out)].

(** The model the dueling constructor builds. *)
Definition dueling_fresh (theta : nat -> R) (d : nat) (rest : list nat)
  (out : nat) (uc : bool) : DuelingDQN.t :=
  let off := if uc then conv_stack_params d else linear_params d 128 in
  DuelingDQN.mk (d :: rest) out uc
    (if uc then conv_stack theta 0 d
     else [LinearL (mkLinear theta 0 d 128); ReLUL])
    (value_fresh theta off) (advantage_fresh theta off out).

(** Features per batch element left by the three convolutions on H x W
    images. *)
Definition conv_features_width (H W : nat) : nat :=
  64 * (feature_hw H * (feature_hw W * 1)).

(** The number of entries of the support the distributional constructor
    builds: the spacing [delta_z], then the length of
    [torch.arange(Vmin, Vmax + delta_z, delta_z)]. *)
Definition support_length (n_atoms : nat) (Vmin Vmax : float) : Result nat :=
  dz <- float_div (PrimFloat.sub Vmax Vmin)
                  (Z2float (Z.of_nat n_atoms - 1)) ;;
  arange_len Vmin (PrimFloat.add Vmax dz) dz.

(** The atom counts up to 200 for which, with the default value range
    [-10, 10], rounding gives the support one entry more than [n_atoms]. *)
Definition long_support_atom_counts : list nat :=
  [12; 15; 16; 20; 39; 61; 78; 90; 93; 113; 116; 119; 122; 123; 124; 125;
   160; 169; 173; 180; 184; 188; 190; 194; 198].

Definition default_support_entries (n_atoms : nat) : nat :=
  if existsb (Nat.eqb n_atoms) long_support_atom_counts
  then n_atoms + 1 else n_atoms.

(** * Properties *)

Unset Implicit Arguments.

(** ** Lists, sums and indices *)

Lemma length_tabulate {A : Type} (n : nat) (f : nat -> A) :
  length (tabulate n f) = n.
Proof. unfold tabulate. now rewrite length_map, length_seq. Qed.

Lemma nth_tabulate (n : nat) (f : nat -> R) (i : nat) :
  i < n -> nth i (tabulate n f) 0%R = f i.
Proof.
  intros Hi. unfold tabulate.
  rewrite (nth_indep _ 0%R (f 0)) by now rewrite length_map, length_seq.
  rewrite map_nth. now rewrite seq_nth.
Qed.

Lemma rd_mk (s : list nat) (n : nat) (f : nat -> R) (i : nat) :
  i < n -> rd (mkTensor s (tabulate n f)) i = f i.
Proof. intros Hi. unfold rd. simpl. now apply nth_tabulate. Qed.

Lemma rsum_ext (n : nat) (f g : nat -> R) :
  (forall k, k < n -> f k = g k) -> rsum n f = rsum n g.
Proof.
  induction n as [|n IH]; intros H; simpl; [reflexivity|].
  rewrite IH by (intros k Hk; apply H; lia).
  now rewrite H by lia.
Qed.

Lemma rsum_const (n : nat) (c : R) : rsum n (fun _ => c) = (INR n * c)%R.
Proof.
  induction n as [|n IH]; [simpl; lra|].
  cbn [rsum]. rewrite IH, S_INR. lra.
Qed.

Lemma numel_app (a b : list nat) : numel (a ++ b) = numel a * numel b.
Proof.
  induction a as [|x a IH]; simpl; [lia|]. rewrite IH. lia.
Qed.

Lemma numel_rev (s : list nat) : numel (rev s) = numel s.
Proof.
  induction s as [|x s IH]; simpl; [reflexivity|].
  rewrite numel_app, IH. simpl. lia.
Qed.

(** Row [n], column [j] of a matrix with [A] columns. *)
Lemma div_row (A n j : nat) : j < A -> (n * A + j) / A = n.
Proof.
  intros Hj. rewrite Nat.add_comm, Nat.div_add by lia.
  rewrite Nat.div_small by lia. reflexivity.
Qed.

Lemma mod_row (A n j : nat) : j < A -> (n * A + j) mod A = j.
Proof.
  intros Hj. rewrite Nat.add_comm, Nat.Div0.mod_add.
  now apply Nat.mod_small.
Qed.

Lemma row_col (A i : nat) : 0 < A -> i = (i / A) * A + i mod A.
Proof. intros HA. rewrite Nat.mul_comm. apply Nat.div_mod_eq. Qed.

Lemma row_bound (N A i : nat) : i < N * A -> i / A < N.
Proof.
  intros Hi. apply Nat.Div0.div_lt_upper_bound. lia.
Qed.

(** ** Broadcasting *)

Lemma bshape_nil_r (ra : list nat) : bshape ra [] = Ok ra.
Proof. destruct ra; reflexivity. Qed.

Lemma bidx_nil_r (rs : list nat) (i : nat) : bidx rs [] i = 0.
Proof. destruct rs; reflexivity. Qed.

Lemma bshape_same (rs : list nat) : bshape rs rs = Ok rs.
Proof.
  induction rs as [|d rs IH]; [reflexivity|].
  simpl. rewrite Nat.eqb_refl, IH. reflexivity.
Qed.

(** An operand of the result's own shape is read at the same index. *)
Lemma bidx_same (rs : list nat) :
  forall i, i < numel rs -> bidx rs rs i = i.
Proof.
  induction rs as [|d rs IH]; intros i Hi; [simpl in *; lia|].
  change (numel (d :: rs)) with (d * numel rs) in Hi.
  assert (Hd : 0 < d) by (destruct d; simpl in Hi; lia).
  cbn [bidx].
  rewrite IH by (apply Nat.Div0.div_lt_upper_bound; lia).
  destruct (Nat.eqb_spec d 1) as [->|Hne].
  - rewrite Nat.div_1_r. lia.
  - pose proof (Nat.div_mod_eq i d). lia.
Qed.

(** A column vector (N, 1) against a matrix (N, A). *)
Lemma bshape_col (N A : nat) : bshape [1; N] [A; N] = Ok [A; N].
Proof.
  cbn [bshape]. rewrite !Nat.eqb_refl. cbn [bind].
  destruct (Nat.eqb_spec 1 A) as [HA|HA]; [subst A|]; reflexivity.
Qed.

Lemma bidx_col (N A i : nat) : i < N * A -> bidx [A; N] [1; N] i = i / A.
Proof.
  intros Hi. simpl.
  pose proof (row_bound N A i Hi) as Hr.
  destruct (Nat.eqb_spec N 1) as [->|Hne]; [lia|].
  rewrite (Nat.mod_small (i / A) N) by assumption. lia.
Qed.

(** A vector (K) against a rank-3 tensor (B, A, K). *)
Lemma bshape_last (B A K : nat) : bshape [K; A; B] [K] = Ok [K; A; B].
Proof. simpl. now rewrite Nat.eqb_refl. Qed.

Lemma pointwise_shape (f : R -> R -> R) (x y : Tensor) (rs : list nat) :
  bshape (rev (shape x)) (rev (shape y)) = Ok rs ->
  pointwise f x y
  = Ok (mkTensor (rev rs)
          (tabulate (numel rs)
             (fun i => f (rd x (bidx rs (rev (shape x)) i))
                         (rd y (bidx rs (rev (shape y)) i))))).
Proof. intros H. unfold pointwise. now rewrite H. Qed.

(** ** The dueling combination *)

(** [values + (advantages - advantages.mean())] on a column of state values
    and a matrix of advantages: entry (n, j) is
    [values[n] + (advantages[n, j] - m)], where [m] is the mean of all
    [N * A] entries of [advantages]. *)
Lemma combine_entries (values advantages : Tensor) (N A : nat) :
  shape values = [N; 1] ->
  shape advantages = [N; A] ->
  exists q,
    DuelingDQN.combine values advantages = Ok q
    /\ shape q = [N; A]
    /\ forall n j, n < N -> j < A ->
         rd q (n * A + j)
         = (rd values n
            + (rd advantages (n * A + j)
               - rsum (N * A) (rd advantages) / INR (N * A)))%R.
Proof.
  intros Hv Ha. unfold DuelingDQN.combine, tsub, tadd.
  rewrite (pointwise_shape Rminus advantages (mean advantages) [A; N]).
  2:{ rewrite Ha. simpl. reflexivity. }
  cbn [bind].
  match goal with |- context [pointwise Rplus values ?c] => set (centred := c) end.
  rewrite (pointwise_shape Rplus values centred [A; N]).
  2:{ rewrite Hv. subst centred. simpl rev. apply bshape_col. }
  eexists. split; [reflexivity|]. split; [reflexivity|].
  intros n j Hn Hj.
  assert (Hi : n * A + j < N * A) by nia.
  assert (Hnum : numel [A; N] = N * A) by (simpl; lia).
  rewrite rd_mk by (rewrite Hnum; exact Hi).
  rewrite Hv. simpl rev at 1. rewrite bidx_col by exact Hi.
  rewrite div_row by exact Hj.
  subst centred. cbn [shape]. simpl rev.
  rewrite (bidx_same [A; N]) by (rewrite Hnum; exact Hi).
  rewrite rd_mk by (rewrite Hnum; exact Hi).
  rewrite Ha. simpl rev.
  rewrite (bidx_same [A; N]) by (rewrite Hnum; exact Hi).
  rewrite bidx_nil_r.
  unfold mean at 1. unfold rd at 3. cbn [data nth].
  rewrite Ha. replace (numel [N; A]) with (N * A) by (simpl; lia).
  reflexivity.
Qed.

(** ** Read-only methods *)

Lemma readonly_mret {S A : Type} (a : A) : readonly (@mret S A a).
Proof. intros s a' s' H. unfold mret in H. congruence. Qed.

Lemma readonly_attr {S A : Type} (f : S -> A) : readonly (attr f).
Proof. intros s a s' H. unfold attr in H. congruence. Qed.

Lemma readonly_lift {S A : Type} (r : Result A) : readonly (@lift S A r).
Proof. intros s a s' H. unfold lift in H. destruct r; congruence. Qed.

Lemma readonly_mbind {S A B : Type} (m : Method S A) (k : A -> Method S B) :
  readonly m -> (forall a, readonly (k a)) -> readonly (mbind m k).
Proof.
  intros Hm Hk s b s' H. unfold mbind in H.
  destruct (m s) as [[a s1]|e] eqn:E; [|discriminate].
  apply Hm in E. subst s1. exact (Hk a s b s' H).
Qed.

Lemma readonly_if {S A : Type} (c : bool) (m1 m2 : Method S A) :
  readonly m1 -> readonly m2 -> readonly (if c then m1 else m2).
Proof. destruct c; auto. Qed.

Create HintDb ro.
#[export] Hint Resolve readonly_mret readonly_attr readonly_lift
  readonly_if : ro.

Ltac readonly_tac :=
  repeat first
    [ apply readonly_mbind; [|intro]
    | apply readonly_if
    | apply readonly_mret
    | apply readonly_attr
    | apply readonly_lift ].

(** A read-only method that returns [a] returns it with the object
    untouched. *)
Lemma returns_readonly {S A : Type} (mth : Method S A) (s : S) (a : A) :
  readonly mth -> returns mth s = Ok a -> mth s = Ok (a, s).
Proof.
  intros Hro H. unfold returns in H.
  destruct (mth s) as [[a' s']|e] eqn:E; [|discriminate].
  apply Hro in E as Hs. congruence.
Qed.

Lemma vanilla_conv_features_readonly (state : Tensor) :
  readonly (VanillaDQN.conv_features state).
Proof. unfold VanillaDQN.conv_features. readonly_tac. Qed.

Lemma vanilla_forward_readonly (state : Tensor) :
  readonly (VanillaDQN.forward state).
Proof.
  unfold VanillaDQN.forward. readonly_tac.
Qed.

Lemma dueling_conv_features_readonly (state : Tensor) :
  readonly (DuelingDQN.conv_features state).
Proof. unfold DuelingDQN.conv_features. readonly_tac. Qed.

Lemma dueling_forward_readonly (state : Tensor) :
  readonly (DuelingDQN.forward state).
Proof.
  unfold DuelingDQN.forward. readonly_tac.
Qed.

Lemma distributional_forward_readonly (state : Tensor) :
  readonly (DistributionalDQN.forward state).
Proof. unfold DistributionalDQN.forward. readonly_tac. Qed.

Lemma distributional_get_q_vals_readonly (state : Tensor) :
  readonly (DistributionalDQN.get_q_vals state).
Proof.
  unfold DistributionalDQN.get_q_vals. readonly_tac.
Qed.

Lemma distributional_conv_features_readonly (state : Tensor) :
  readonly (DistributionalDQN.conv_features state).
Proof. unfold DistributionalDQN.conv_features. readonly_tac. Qed.

Lemma recurrent_conv_features_readonly (state : Tensor) :
  readonly (RecurrentDQN.conv_features state).
Proof. unfold RecurrentDQN.conv_features. readonly_tac. Qed.

Lemma recurrent_forward_readonly (state hidden : Tensor) :
  readonly (RecurrentDQN.forward state hidden).
Proof.
  unfold RecurrentDQN.forward. readonly_tac.
Qed.

Lemma recurrent_init_hidden_readonly : readonly RecurrentDQN.init_hidden.
Proof. unfold RecurrentDQN.init_hidden. readonly_tac. Qed.

(** ** Layers on well-shaped inputs *)

Lemma tabulate_ext {A : Type} (n : nat) (f g : nat -> A) :
  (forall i, i < n -> f i = g i) -> tabulate n f = tabulate n g.
Proof.
  intros H. unfold tabulate. apply map_ext_in.
  intros i Hi. apply in_seq in Hi. apply H. lia.
Qed.

Lemma linear_forward_ok (l : Linear) (x : Tensor) (pre : list nat) :
  shape x = pre ++ [in_features l] ->
  linear_forward l x = Ok (linear_out l x pre).
Proof.
  intros Hs. unfold linear_forward, linear_out.
  rewrite Hs, rev_app_distr. cbn [rev app].
  rewrite Nat.eqb_refl, rev_involutive, numel_rev. reflexivity.
Qed.

Lemma linear_forward_mismatch (l : Linear) (x : Tensor) (pre : list nat)
  (d : nat) :
  shape x = pre ++ [d] -> d <> in_features l ->
  linear_forward l x = Err RuntimeError.
Proof.
  intros Hs Hd. unfold linear_forward.
  rewrite Hs, rev_app_distr. cbn [rev app].
  destruct (Nat.eqb_spec d (in_features l)); [contradiction|reflexivity].
Qed.

Lemma shape_linear_out (l : Linear) (x : Tensor) (pre : list nat) :
  shape (linear_out l x pre) = pre ++ [out_features l].
Proof. reflexivity. Qed.

Lemma shape_relu (x : Tensor) : shape (relu x) = shape x.
Proof. reflexivity. Qed.

Lemma rd_repeat (s : list nat) (c : R) (n i : nat) :
  i < n -> rd (mkTensor s (repeat c n)) i = c.
Proof.
  intros Hi. unfold rd. cbn [data].
  rewrite (nth_indep _ 0%R c) by now rewrite repeat_length.
  apply nth_repeat.
Qed.

Lemma rd_rows (N d : nat) (f : nat -> R) (n j : nat) :
  n < N -> j < d -> rd (rows N d f) (n * d + j) = f n.
Proof.
  intros Hn Hj. unfold rows. rewrite rd_mk by nia.
  now rewrite div_row.
Qed.

(** A layer whose weights all equal [c] and whose biases all equal [b] maps
    constant rows to constant rows. *)
Lemma linear_out_rows (l : Linear) (c b : R) (N : nat) (f : nat -> R) :
  (forall k, k < out_features l * in_features l -> rd (weight l) k = c) ->
  (forall k, k < out_features l -> rd (bias l) k = b) ->
  linear_out l (rows N (in_features l) f) [N]
  = rows N (out_features l) (fun n => (b + INR (in_features l) * (f n * c))%R).
Proof.
  intros Hw Hb. set (i := in_features l). set (o := out_features l).
  unfold linear_out, rows. fold i o. cbn [app numel fold_right].
  rewrite Nat.mul_1_r. f_equal.
  apply tabulate_ext. intros k Hk.
  assert (Ho : 0 < o) by (destruct o; lia).
  pose proof (row_bound N o k Hk) as Hr.
  pose proof (Nat.mod_upper_bound k o ltac:(lia)) as Hm.
  unfold linear_entry. fold i o.
  rewrite Hb by exact Hm.
  rewrite (rsum_ext i _ (fun _ => (f (k / o)%nat * c)%R)).
  - now rewrite rsum_const.
  - intros t Ht.
    rewrite rd_mk by nia. rewrite div_row by exact Ht.
    rewrite Hw by (fold i o; nia). reflexivity.
Qed.

Lemma linear_rows (i o : nat) (c b : R) (N : nat) (f : nat -> R) :
  linear_forward (const_linear i o c b) (rows N i f)
  = Ok (rows N o (fun n => (b + INR i * (f n * c))%R)).
Proof.
  rewrite (linear_forward_ok _ _ [N]) by reflexivity. f_equal.
  apply (linear_out_rows (const_linear i o c b)); intros k Hk;
    apply rd_repeat; exact Hk.
Qed.

(** A freshly built layer, all of whose parameters were drawn equal. *)
Lemma fresh_linear_rows (c : R) (off i o N : nat) (f : nat -> R) :
  linear_out (mkLinear (fun _ => c) off i o) (rows N i f) [N]
  = rows N o (fun n => (c + INR i * (f n * c))%R).
Proof.
  apply (linear_out_rows (mkLinear (fun _ => c) off i o)); intros k Hk;
    cbn [weight bias mkLinear in_features out_features] in *;
    unfold fresh; apply rd_mk; cbn [numel fold_right]; lia.
Qed.

Lemma relu_rows (N d : nat) (f : nat -> R) :
  relu (rows N d f) = rows N d (fun n => Rmax 0 (f n)).
Proof.
  unfold relu, rows. cbn [shape data]. f_equal.
  unfold tabulate. now rewrite map_map.
Qed.

Lemma rows_ext (N d : nat) (f g : nat -> R) :
  (forall n, n < N -> f n = g n) -> rows N d f = rows N d g.
Proof.
  intros H. unfold rows. f_equal. apply tabulate_ext.
  intros i Hi. apply H. now apply row_bound.
Qed.

(** ** DuelingDQN.forward *)

Lemma dueling_features_run (m : DuelingDQN.t) (state feats : Tensor) :
  dueling_features m state = Ok feats ->
  (if DuelingDQN.use_conv m
   then DuelingDQN.conv_features state
   else (f <~ attr DuelingDQN.features ;;
         lift (sequential_forward f state))) m = Ok (feats, m).
Proof.
  intros H. apply returns_readonly; [|exact H].
  apply readonly_if; [apply dueling_conv_features_readonly|readonly_tac].
Qed.

Lemma dueling_forward_steps (m : DuelingDQN.t)
  (state feats values advantages : Tensor) :
  dueling_features m state = Ok feats ->
  sequential_forward (DuelingDQN.value_stream m) feats = Ok values ->
  sequential_forward (DuelingDQN.advantage_stream m) feats = Ok advantages ->
  DuelingDQN.forward state m
  = match DuelingDQN.combine values advantages with
    | Ok q => Ok (q, m)
    | Err e => Err e
    end.
Proof.
  intros Hf Hv Ha. apply dueling_features_run in Hf.
  unfold DuelingDQN.forward.
  unfold mbind at 1. unfold attr at 1.
  unfold mbind at 1. rewrite Hf.
  unfold mbind, attr, lift, mret. rewrite Hv, Ha.
  destruct (DuelingDQN.combine values advantages); reflexivity.
Qed.

(** C2.  Whenever the feature extractor and the two streams return, with
    the value stream producing a column (N, 1) and the advantage stream a
    matrix (N, A), [DuelingDQN.forward] returns, leaves the model as it was,
    and its result is exactly [values + (advantages - mean(advantages))]:
    entry (n, j) is [values[n] + (advantages[n, j] - mean)], the mean being
    that of all entries of [advantages]. *)
Theorem dueling_forward_is_value_plus_centred_advantage
  (m : DuelingDQN.t) (state feats values advantages : Tensor) (N A : nat) :
  dueling_features m state = Ok feats ->
  sequential_forward (DuelingDQN.value_stream m) feats = Ok values ->
  sequential_forward (DuelingDQN.advantage_stream m) feats = Ok advantages ->
  shape values = [N; 1] ->
  shape advantages = [N; A] ->
  exists q,
    DuelingDQN.forward state m = Ok (q, m)
    /\ DuelingDQN.combine values advantages = Ok q
    /\ shape q = [N; A]
    /\ forall n j, n < N -> j < A ->
         rd q (n * A + j)
         = (rd values n
            + (rd advantages (n * A + j)
               - rsum (N * A) (rd advantages) / INR (N * A)))%R.
Proof.
  intros Hf Hv Ha Hsv Hsa.
  destruct (combine_entries values advantages N A Hsv Hsa)
    as (q & Hq & Hs & He).
  exists q. repeat split; try assumption.
  rewrite (dueling_forward_steps m state feats values advantages Hf Hv Ha).
  now rewrite Hq.
Qed.

(** One step of a [Sequential], layers kept folded. *)
Ltac seq_step := cbn [sequential_forward layer_forward bind].

(** The example network on a batch of non-negative observations. *)
Lemma INR_128 : INR 128 = 128%R.
Proof. rewrite INR_IZR_INZ. reflexivity. Qed.

Lemma example_features (N : nat) (f : nat -> R) :
  (forall n, (0 <= f n)%R) ->
  dueling_features dueling_example (rows N 1 f) = Ok (rows N 128 f).
Proof.
  intros Hf. unfold dueling_features, returns, dueling_example.
  cbn [DuelingDQN.use_conv DuelingDQN.features mbind attr lift].
  seq_step. rewrite linear_rows. seq_step. rewrite relu_rows.
  cbn [lift]. f_equal. apply rows_ext. intros n _.
  change (INR 1) with 1%R.
  rewrite Rmax_right; [lra|]. specialize (Hf n). lra.
Qed.

Lemma example_values (N : nat) (f : nat -> R) :
  sequential_forward (DuelingDQN.value_stream dueling_example) (rows N 128 f)
  = Ok (rows N 1 (fun _ => 0%R)).
Proof.
  unfold dueling_example. cbn [DuelingDQN.value_stream].
  seq_step. rewrite linear_rows. seq_step. rewrite relu_rows, linear_rows.
  seq_step. f_equal. apply rows_ext. intros n _. lra.
Qed.

Lemma example_advantages (N : nat) (f : nat -> R) :
  (forall n, (0 <= f n)%R) ->
  sequential_forward (DuelingDQN.advantage_stream dueling_example)
    (rows N 128 f)
  = Ok (rows N 1 f).
Proof.
  intros Hf. unfold dueling_example. cbn [DuelingDQN.advantage_stream].
  seq_step. rewrite linear_rows. seq_step. rewrite relu_rows, linear_rows.
  seq_step. f_equal. apply rows_ext. intros n _. specialize (Hf n).
  rewrite INR_128. rewrite Rmax_right; [field|].
  lra.
Qed.

Lemma two_obs_nonneg (n : nat) : (0 <= two_obs n)%R.
Proof.
  unfold two_obs. destruct n as [|[|[|n]]]; simpl; lra.
Qed.

Lemma rd_rows_1 (N : nat) (f : nat -> R) (n : nat) :
  n < N -> rd (rows N 1 f) n = f n.
Proof.
  intros Hn. replace n with (n * 1 + 0) at 1 by lia.
  apply rd_rows; lia.
Qed.

(** The example network on [N] observations [f 0 .. f (N-1)]: the value
    returned for observation [n] is [f n] minus the mean of the whole
    batch. *)
Lemma example_forward (N : nat) (f : nat -> R) :
  (forall n, (0 <= f n)%R) ->
  exists q,
    DuelingDQN.forward (rows N 1 f) dueling_example = Ok (q, dueling_example)
    /\ shape q = [N; 1]
    /\ forall n, n < N -> rd q n = (f n - rsum N f / INR N)%R.
Proof.
  intros Hf.
  pose proof (example_features N f Hf) as H1.
  pose proof (example_values N f) as H2.
  pose proof (example_advantages N f Hf) as H3.
  destruct (combine_entries (rows N 1 (fun _ => 0%R)) (rows N 1 f) N 1
              eq_refl eq_refl) as (q & Hq & Hs & He).
  exists q. split; [|split; [exact Hs|]].
  - rewrite (dueling_forward_steps _ _ _ _ _ H1 H2 H3). now rewrite Hq.
  - intros n Hn. specialize (He n 0 Hn ltac:(lia)).
    rewrite !Nat.mul_1_r, Nat.add_0_r in He. rewrite He.
    rewrite !rd_rows_1 by exact Hn.
    rewrite (rsum_ext N (rd (rows N 1 f)) f)
      by (intros k Hk; now apply rd_rows_1).
    lra.
Qed.

Lemma C2_witness :
  exists q,
    DuelingDQN.forward (cat0 (obs 0) (obs 2)) dueling_example
    = Ok (q, dueling_example)
    /\ DuelingDQN.combine (rows 2 1 (fun _ => 0%R)) (rows 2 1 two_obs) = Ok q
    /\ shape q = [2; 1]
    /\ forall n j, n < 2 -> j < 1 ->
         rd q (n * 1 + j)
         = (rd (rows 2 1 (fun _ => 0%R)) n
            + (rd (rows 2 1 two_obs) (n * 1 + j)
               - rsum (2 * 1) (rd (rows 2 1 two_obs)) / INR (2 * 1)))%R.
Proof.
  exact (dueling_forward_is_value_plus_centred_advantage
           dueling_example (rows 2 1 two_obs) (rows 2 128 two_obs)
           (rows 2 1 (fun _ => 0%R)) (rows 2 1 two_obs) 2 1
           (example_features 2 two_obs two_obs_nonneg)
           (example_values 2 two_obs)
           (example_advantages 2 two_obs two_obs_nonneg)
           eq_refl eq_refl).
Defined.

(** C9.  The mean subtracted by [DuelingDQN.forward] is the mean of all
    entries of the advantage tensor, over batch elements and actions alike;
    the value returned for one element therefore depends on the rest of the
    batch.  On the example network, the observations 0 and 2 evaluated as
    one batch give -1 and 1, evaluated one at a time they give 0 and 0: the
    batch result is not the concatenation of the single results. *)
Theorem dueling_batch_is_not_elementwise :
  (forall a : Tensor,
     data (mean a)
     = [(rsum (numel (shape a)) (rd a) / INR (numel (shape a)))%R])
  /\ exists q q1 q2,
       returns (DuelingDQN.forward (cat0 (obs 0) (obs 2))) dueling_example
       = Ok q
       /\ returns (DuelingDQN.forward (obs 0)) dueling_example = Ok q1
       /\ returns (DuelingDQN.forward (obs 2)) dueling_example = Ok q2
       /\ rd q 0 = (-1)%R /\ rd q 1 = 1%R
       /\ rd q1 0 = 0%R /\ rd q2 0 = 0%R
       /\ q <> cat0 q1 q2.
Proof.
  split; [reflexivity|].
  destruct (example_forward 2 two_obs two_obs_nonneg) as (q & Hq & Hsq & Heq).
  destruct (example_forward 1 (fun _ => 0%R) ltac:(intros; lra))
    as (q1 & Hq1 & Hs1 & He1).
  destruct (example_forward 1 (fun _ => 2%R) ltac:(intros; lra))
    as (q2 & Hq2 & Hs2 & He2).
  assert (E0 : rd q 0 = (-1)%R).
  { rewrite Heq by lia. unfold two_obs. simpl. lra. }
  assert (E1 : rd q 1 = 1%R).
  { rewrite Heq by lia. unfold two_obs. simpl. lra. }
  assert (F1 : rd q1 0 = 0%R).
  { rewrite He1 by lia. simpl. lra. }
  assert (F2 : rd q2 0 = 0%R).
  { rewrite He2 by lia. simpl. lra. }
  exists q, q1, q2.
  change (cat0 (obs 0) (obs 2)) with (rows 2 1 two_obs).
  change (obs 0) with (rows 1 1 (fun _ => 0%R)).
  change (obs 2) with (rows 1 1 (fun _ => 2%R)).
  unfold returns. rewrite Hq, Hq1, Hq2.
  repeat split; try assumption.
  intros Heq'.
  assert (Hc : rd (cat0 q1 q2) 0 = 0%R).
  { unfold cat0. rewrite Hs1, Hs2. unfold rd. cbn [data].
    destruct (data q1) as [|x l] eqn:D1.
    - simpl. exact F2.
    - unfold rd in F1. rewrite D1 in F1. simpl in *. exact F1. }
  rewrite <- Heq' in Hc. lra.
Qed.

(** ** Convolutions and flattening *)

Lemma conv2d_forward_ok (c : Conv2d) (x : Tensor) (N H W : nat) :
  shape x = [N; in_channels c; H; W] ->
  0 < stride c -> kernel_size c <= H -> kernel_size c <= W ->
  conv2d_forward c x = Ok (conv2d_out c x N H W).
Proof.
  intros Hs Hst HH HW. unfold conv2d_forward, conv2d_out. rewrite Hs.
  rewrite Nat.eqb_refl.
  apply Nat.ltb_lt in Hst. apply Nat.leb_le in HH, HW.
  rewrite Hst, HH, HW. reflexivity.
Qed.

Lemma conv_fits_spec (n : nat) :
  conv_fits n = true ->
  8 <= n /\ 4 <= conv_out n 8 4 /\ 3 <= conv_out (conv_out n 8 4) 4 2.
Proof.
  unfold conv_fits. rewrite !andb_true_iff, !Nat.leb_le. tauto.
Qed.

(** The three convolutions on a batch of images large enough for them. *)
Lemma conv_stack_ok (theta : nat -> R) (off c0 : nat) (x : Tensor)
  (N H W : nat) :
  shape x = [N; c0; H; W] ->
  conv_fits H = true -> conv_fits W = true ->
  exists y,
    sequential_forward (conv_stack theta off c0) x = Ok y
    /\ shape y = [N; 64; feature_hw H; feature_hw W].
Proof.
  intros Hs HH HW.
  apply conv_fits_spec in HH as (H1 & H2 & H3).
  apply conv_fits_spec in HW as (W1 & W2 & W3).
  unfold conv_stack. seq_step.
  rewrite (conv2d_forward_ok _ x N H W) by (cbn; auto with arith).
  seq_step.
  match goal with |- context [conv2d_forward ?c ?t] =>
    rewrite (conv2d_forward_ok c t N (conv_out H 8 4) (conv_out W 8 4))
      by (cbn; auto with arith)
  end.
  seq_step.
  match goal with |- context [conv2d_forward ?c ?t] =>
    rewrite (conv2d_forward_ok c t N (conv_out (conv_out H 8 4) 4 2)
               (conv_out (conv_out W 8 4) 4 2))
      by (cbn; auto with arith)
  end.
  seq_step. eexists. split; reflexivity.
Qed.

(** [feats.view(feats.size(0), -1)] on a non-empty batch. *)
Lemma view_flatten (y : Tensor) (N : nat) (rest : list nat) :
  shape y = N :: rest -> 0 < N ->
  view y [Some N; None] = Ok (mkTensor [N; numel rest] (data y)).
Proof.
  intros Hs HN. unfold view. cbn [holes filter length known fold_right].
  rewrite Hs. change (numel (N :: rest)) with (N * numel rest).
  rewrite Nat.mul_1_r.
  destruct (Nat.eqb_spec N 0) as [?|_]; [lia|].
  rewrite Nat.mul_comm, Nat.Div0.mod_mul, Nat.div_mul by lia.
  reflexivity.
Qed.

Lemma size0 (y : Tensor) (N : nat) (rest : list nat) :
  shape y = N :: rest -> size y 0 = Ok N.
Proof. intros Hs. unfold size. now rewrite Hs. Qed.

(** ** VanillaDQN.forward *)

Lemma vanilla_forward_conv_steps (m : VanillaDQN.t) (state feats : Tensor) :
  VanillaDQN.use_conv m = true ->
  returns (VanillaDQN.conv_features state) m = Ok feats ->
  VanillaDQN.forward state m
  = match sequential_forward (VanillaDQN.fc m) state with
    | Ok q => Ok (q, m)
    | Err e => Err e
    end.
Proof.
  intros Hc Hf.
  apply returns_readonly in Hf; [|apply vanilla_conv_features_readonly].
  unfold VanillaDQN.forward.
  unfold mbind at 1. unfold attr at 1. rewrite Hc.
  unfold mbind at 1. rewrite Hf.
  unfold mbind, attr, lift, mret.
  destruct (sequential_forward (VanillaDQN.fc m) state); reflexivity.
Qed.

(** C3.  In convolutional mode, whenever the feature extractor returns,
    [VanillaDQN.forward] returns what the fully-connected head computes on
    the raw state: the extracted features are not used.  Two models with the
    same head therefore return the same Q-values, whatever their extractors
    compute. *)
Theorem vanilla_conv_forward_is_fc_of_state
  (m : VanillaDQN.t) (state feats : Tensor) :
  VanillaDQN.use_conv m = true ->
  returns (VanillaDQN.conv_features state) m = Ok feats ->
  returns (VanillaDQN.forward state) m
  = sequential_forward (VanillaDQN.fc m) state
  /\ forall (m2 : VanillaDQN.t) (feats2 : Tensor),
       VanillaDQN.use_conv m2 = true ->
       VanillaDQN.fc m2 = VanillaDQN.fc m ->
       returns (VanillaDQN.conv_features state) m2 = Ok feats2 ->
       returns (VanillaDQN.forward state) m2
       = returns (VanillaDQN.forward state) m.
Proof.
  intros Hc Hf.
  assert (H1 : forall m' f', VanillaDQN.use_conv m' = true ->
             returns (VanillaDQN.conv_features state) m' = Ok f' ->
             returns (VanillaDQN.forward state) m'
             = sequential_forward (VanillaDQN.fc m') state).
  { intros m' f' Hc' Hf'. unfold returns at 1.
    rewrite (vanilla_forward_conv_steps m' state f' Hc' Hf').
    destruct (sequential_forward (VanillaDQN.fc m') state); reflexivity. }
  split; [exact (H1 m feats Hc Hf)|].
  intros m2 feats2 Hc2 Hfc Hf2.
  rewrite (H1 m2 feats2 Hc2 Hf2), (H1 m feats Hc Hf), Hfc. reflexivity.
Qed.

Lemma vanilla_conv_features_ok (m : VanillaDQN.t) (theta : nat -> R)
  (off c0 : nat) (x : Tensor) (N H W : nat) :
  VanillaDQN.features m = Some (conv_stack theta off c0) ->
  shape x = [N; c0; H; W] -> 0 < N ->
  conv_fits H = true -> conv_fits W = true ->
  exists feats,
    returns (VanillaDQN.conv_features x) m = Ok feats
    /\ shape feats = [N; 64 * (feature_hw H * (feature_hw W * 1))].
Proof.
  intros Hf Hs HN HH HW.
  destruct (conv_stack_ok theta off c0 x N H W Hs HH HW) as (y & Hy & Hsy).
  unfold returns, VanillaDQN.conv_features, mbind, attr, lift.
  rewrite Hf. cbn [call_module]. rewrite Hy.
  rewrite (size0 y N _ Hsy), (view_flatten y N _ Hsy HN).
  eexists. split; reflexivity.
Qed.

Lemma C3_witness :
  (returns (VanillaDQN.forward (zeros [1; 1; 36; 36])) vanilla_conv_example
   = sequential_forward (VanillaDQN.fc vanilla_conv_example)
       (zeros [1; 1; 36; 36])
   /\ forall (m2 : VanillaDQN.t) (feats2 : Tensor),
        VanillaDQN.use_conv m2 = true ->
        VanillaDQN.fc m2 = VanillaDQN.fc vanilla_conv_example ->
        returns (VanillaDQN.conv_features (zeros [1; 1; 36; 36])) m2
        = Ok feats2 ->
        returns (VanillaDQN.forward (zeros [1; 1; 36; 36])) m2
        = returns (VanillaDQN.forward (zeros [1; 1; 36; 36]))
            vanilla_conv_example)
  /\ is_ok (returns (VanillaDQN.forward (zeros [1; 1; 36; 36]))
              vanilla_conv_example) = true.
Proof.
  destruct (vanilla_conv_features_ok vanilla_conv_example (fun _ => 0%R) 0 1
              (zeros [1; 1; 36; 36]) 1 36 36 eq_refl eq_refl
              (le_n 1) eq_refl eq_refl) as (feats & Hf & _).
  pose proof (vanilla_conv_forward_is_fc_of_state vanilla_conv_example
                (zeros [1; 1; 36; 36]) feats eq_refl Hf) as Hw.
  split; [exact Hw|].
  destruct Hw as [Hw _]. rewrite Hw.
  unfold vanilla_conv_example. cbn [VanillaDQN.fc]. seq_step.
  rewrite (linear_forward_ok _ _ [1; 1; 36]) by reflexivity. seq_step.
  rewrite (linear_forward_ok _ _ [1; 1; 36]) by reflexivity. seq_step.
  rewrite (linear_forward_ok _ _ [1; 1; 36]) by reflexivity.
  reflexivity.
Defined.

(** ** DistributionalDQN.get_q_vals *)

(** C10.  [get_q_vals] never returns.  When [forward] raises, so does
    [get_q_vals]; when [forward] returns, its result is a pair, and applying
    the softmax module to that pair raises [AttributeError] before any
    weighting by the support takes place. *)
Theorem get_q_vals_never_returns (m : DistributionalDQN.t) (state : Tensor) :
  DistributionalDQN.get_q_vals state m
  = match DistributionalDQN.forward state m with
    | Ok _ => Err AttributeError
    | Err e => Err e
    end
  /\ is_ok (DistributionalDQN.get_q_vals state m) = false.
Proof.
  assert (H : DistributionalDQN.get_q_vals state m
              = match DistributionalDQN.forward state m with
                | Ok _ => Err AttributeError
                | Err e => Err e
                end).
  { unfold DistributionalDQN.get_q_vals.
    unfold mbind at 1.
    destruct (DistributionalDQN.forward state m) as [[r m']|e];
      reflexivity. }
  split; [exact H|].
  rewrite H. destruct (DistributionalDQN.forward state m); reflexivity.
Qed.

(** ** Construction *)

Lemma vanilla_init_conv (theta : nat -> R) (input_dim : list nat)
  (output_dim : nat) :
  VanillaDQN.init theta input_dim output_dim true
  = match input_dim with
    | [] => Err IndexError
    | _ :: _ => Err TypeError
    end.
Proof. destruct input_dim; reflexivity. Qed.

Lemma recurrent_init_conv (theta : nat -> R) (input_dim : list nat)
  (gru_size output_dim : nat) :
  RecurrentDQN.init theta input_dim gru_size output_dim true = Err TypeError.
Proof. reflexivity. Qed.

Lemma distributional_init_conv (theta : nat -> R) (input_dim : list nat)
  (output_dim n_atoms : nat) (Vmin Vmax : float) :
  is_ok (DistributionalDQN.init theta input_dim output_dim true n_atoms
           Vmin Vmax) = false.
Proof.
  unfold DistributionalDQN.init.
  destruct (float_div _ _) as [dz|e]; [|reflexivity]. cbn [bind].
  destruct (arange _ _ _) as [sup|e]; [|reflexivity]. cbn [bind].
  destruct input_dim; reflexivity.
Qed.

Lemma dueling_init_conv (theta : nat -> R) (c0 : nat) (rest : list nat)
  (output_dim : nat) :
  exists m,
    DuelingDQN.init theta (c0 :: rest) output_dim true = Ok m
    /\ DuelingDQN.use_conv m = true
    /\ DuelingDQN.output_dim m = output_dim
    /\ DuelingDQN.features m = conv_stack theta 0 c0
    /\ (exists l1 l2, DuelingDQN.value_stream m
                       = [LinearL l1; ReLUL; LinearL l2]
                      /\ in_features l1 = 128 /\ out_features l1 = 128
                      /\ in_features l2 = 128 /\ out_features l2 = 1)
    /\ (exists l1 l2, DuelingDQN.advantage_stream m
                       = [LinearL l1; ReLUL; LinearL l2]
                      /\ in_features l1 = 128 /\ out_features l1 = 128
                      /\ in_features l2 = 128
                      /\ out_features l2 = output_dim).
Proof.
  eexists. split; [reflexivity|].
  repeat split; try reflexivity;
    do 2 eexists; repeat split; reflexivity.
Qed.

(** C5.  With [use_conv=True] the constructors of [VanillaDQN],
    [DistributionalDQN] and [RecurrentDQN] never return a model: each of
    them reaches a call of [feature_size] (or, in [RecurrentDQN], of
    [conv_layer]) written without its argument.  For an [input_dim] that
    names at least one channel the vanilla and the recurrent constructor raise
    [TypeError]; the distributional one, with its default atoms, raises
    [AttributeError], the class having no [feature_size] at all.  The
    fourth class, [DuelingDQN], makes no such call and its constructor
    returns. *)
Theorem conv_construction_fails_in_three_classes
  (theta : nat -> R) (input_dim : list nat) (output_dim gru_size n_atoms : nat)
  (Vmin Vmax : float) :
  is_ok (VanillaDQN.init theta input_dim output_dim true) = false
  /\ is_ok (DistributionalDQN.init theta input_dim output_dim true n_atoms
              Vmin Vmax) = false
  /\ is_ok (RecurrentDQN.init theta input_dim gru_size output_dim true)
     = false
  /\ (forall c0 rest,
        VanillaDQN.init theta (S c0 :: rest) output_dim true = Err TypeError)
  /\ (forall c0 rest,
        DistributionalDQN.init theta (S c0 :: rest) output_dim true 51
          (-10)%float 10%float = Err AttributeError)
  /\ RecurrentDQN.init theta input_dim gru_size output_dim true
     = Err TypeError
  /\ (forall c0 rest,
        is_ok (DuelingDQN.init theta (S c0 :: rest) output_dim true)
        = true).
Proof.
  refine (conj _ (conj _ (conj _ (conj _ (conj _ (conj _ _)))))).
  - rewrite vanilla_init_conv. destruct input_dim; reflexivity.
  - apply distributional_init_conv.
  - now rewrite recurrent_init_conv.
  - intros c0 rest. now rewrite vanilla_init_conv.
  - intros c0 rest. reflexivity.
  - apply recurrent_init_conv.
  - intros c0 rest.
    destruct (dueling_init_conv theta (S c0) rest output_dim)
      as (m & Hm & _).
    now rewrite Hm.
Qed.

(** ** The fully-connected head *)

Lemma mlp_forward_ok (l1 l2 l3 : Linear) (x : Tensor) (N : nat) :
  shape x = [N; in_features l1] ->
  in_features l2 = out_features l1 ->
  in_features l3 = out_features l2 ->
  sequential_forward [LinearL l1; ReLUL; LinearL l2; ReLUL; LinearL l3] x
  = Ok (mlp_out l1 l2 l3 x N).
Proof.
  intros Hx H12 H23. unfold mlp_out. seq_step.
  rewrite (linear_forward_ok l1 x [N]) by exact Hx. seq_step.
  rewrite (linear_forward_ok l2 _ [N])
    by (rewrite shape_relu, shape_linear_out, H12; reflexivity).
  seq_step.
  rewrite (linear_forward_ok l3 _ [N])
    by (rewrite shape_relu, shape_linear_out, H23; reflexivity).
  reflexivity.
Qed.

Lemma fresh_head_ok (theta : nat -> R) (d w : nat) (x : Tensor) (N : nat) :
  shape x = [N; d] ->
  exists y,
    sequential_forward (fresh_head theta d w) x = Ok y
    /\ shape y = [N; w].
Proof.
  intros Hx. unfold fresh_head.
  rewrite (mlp_forward_ok _ _ _ x N) by (try exact Hx; reflexivity).
  eexists. split; reflexivity.
Qed.

Lemma fresh_head_mismatch (theta : nat -> R) (d w : nat) (x : Tensor)
  (pre : list nat) (d' : nat) :
  shape x = pre ++ [d'] -> d' <> d ->
  sequential_forward (fresh_head theta d w) x = Err RuntimeError.
Proof.
  intros Hx Hd. unfold fresh_head. seq_step.
  now rewrite (linear_forward_mismatch (mkLinear theta 0 d 128) x pre d' Hx Hd).
Qed.

Lemma head_width_fresh_head (theta : nat -> R) (d w : nat) :
  head_width (fresh_head theta d w) = Some w.
Proof. reflexivity. Qed.

(** ** DistributionalDQN *)

Lemma distributional_init_nonconv (theta : nat -> R) (d : nat)
  (rest : list nat) (A n : nat) (Vmin Vmax dz : float) (k : nat) :
  float_div (PrimFloat.sub Vmax Vmin) (Z2float (Z.of_nat n - 1)) = Ok dz ->
  arange_len Vmin (PrimFloat.add Vmax dz) dz = Ok k ->
  DistributionalDQN.init theta (d :: rest) A false n Vmin Vmax
  = Ok (DistributionalDQN.mk (d :: rest) A n false Vmin Vmax dz
          (support_of Vmin dz k) None (fresh_head theta d (A * n)) 1).
Proof.
  intros Hdz Hk. unfold DistributionalDQN.init, arange.
  rewrite Hdz. cbn [bind]. rewrite Hk. reflexivity.
Qed.

Lemma distributional_init_nonconv_inv (theta : nat -> R)
  (input_dim : list nat) (A n : nat) (Vmin Vmax : float)
  (m : DistributionalDQN.t) :
  DistributionalDQN.init theta input_dim A false n Vmin Vmax = Ok m ->
  exists d rest dz k,
    input_dim = d :: rest
    /\ m = DistributionalDQN.mk (d :: rest) A n false Vmin Vmax dz
             (support_of Vmin dz k) None (fresh_head theta d (A * n)) 1.
Proof.
  unfold DistributionalDQN.init, arange. intros H.
  destruct (float_div _ _) as [dz|e]; [|discriminate]. cbn [bind] in H.
  destruct (arange_len _ _ _) as [k|e]; [|discriminate]. cbn [bind] in H.
  destruct input_dim as [|d rest]; [discriminate|].
  exists d, rest, dz, k. split; [reflexivity|].
  cbn [bind item0] in H. injection H as <-. reflexivity.
Qed.

(** [fc(state).view(batch_size, -1, n_atoms)] *)
Lemma view_atoms (y : Tensor) (B A K : nat) :
  shape y = [B; A * K] -> 0 < B -> 0 < K ->
  view y [Some B; None; Some K] = Ok (mkTensor [B; A; K] (data y)).
Proof.
  intros Hs HB HK. unfold view. cbn [holes filter length known fold_right].
  rewrite Hs. cbn [numel fold_right].
  replace (B * (A * K * 1)) with (A * (B * (K * 1))) by lia.
  destruct (Nat.eqb_spec (B * (K * 1)) 0) as [?|_]; [nia|].
  rewrite Nat.Div0.mod_mul, Nat.div_mul by nia. reflexivity.
Qed.

Lemma softmax_forward_ok (dim : nat) (x : Tensor) (d : nat) :
  nth_error (shape x) dim = Some d ->
  exists p, softmax_forward dim x = Ok p /\ shape p = shape x.
Proof.
  intros H. unfold softmax_forward. rewrite H.
  eexists. split; reflexivity.
Qed.

(** The forward pass of a distributional network without convolution whose
    head maps the state to a (B, A * K) tensor [y] and whose support has the
    [K] entries the reshaping assumes. *)
Lemma distributional_forward_run (m : DistributionalDQN.t)
  (state y : Tensor) (B A K : nat) (srest : list nat) :
  DistributionalDQN.use_conv m = false ->
  DistributionalDQN.n_atoms m = K ->
  DistributionalDQN.softmax m = 1 ->
  shape (DistributionalDQN.support m) = [K] ->
  shape state = B :: srest ->
  sequential_forward (DistributionalDQN.fc m) state = Ok y ->
  shape y = [B; A * K] -> 0 < B -> 0 < K ->
  exists probs weighted q,
    DistributionalDQN.forward state m
    = Ok ((mkTensor [B; A; K] (data y), q), m)
    /\ softmax_forward 1 (mkTensor [B; A; K] (data y)) = Ok probs
    /\ tmul probs (DistributionalDQN.support m) = Ok weighted
    /\ sum_dim weighted 2 = Ok q
    /\ shape q = [B; A].
Proof.
  intros Hc Hn Hsm Hsup Hst Hy Hsy HB HK.
  set (dist := mkTensor [B; A; K] (data y)).
  destruct (softmax_forward_ok 1 dist A eq_refl) as (probs & Hp & Hsp).
  assert (Hw : tmul probs (DistributionalDQN.support m)
               = Ok (mkTensor [B; A; K]
                       (tabulate (numel [K; A; B])
                          (fun i => (rd probs (bidx [K; A; B]
                                                (rev (shape probs)) i)
                                     * rd (DistributionalDQN.support m)
                                         (bidx [K; A; B] [K] i))%R)))).
  { unfold tmul. rewrite (pointwise_shape _ _ _ [K; A; B]).
    - rewrite Hsup. reflexivity.
    - rewrite Hsp, Hsup. apply bshape_last. }
  eexists probs, _, _.
  split; [|split; [exact Hp|split; [exact Hw|split; reflexivity]]].
  unfold DistributionalDQN.forward, mbind, attr, lift, mret.
  rewrite (size0 state B srest Hst), Hc, Hy, Hn.
  rewrite (view_atoms y B A K Hsy HB HK). fold dist.
  rewrite Hsm. cbn [softmax_call]. rewrite Hp, Hw.
  reflexivity.
Qed.

(** When the support has another length than the reshaping assumes, the
    weighting of the probabilities cannot be broadcast. *)
Lemma distributional_forward_support_mismatch (m : DistributionalDQN.t)
  (state y : Tensor) (B A K K' : nat) (srest : list nat) :
  DistributionalDQN.use_conv m = false ->
  DistributionalDQN.n_atoms m = K ->
  DistributionalDQN.softmax m = 1 ->
  shape (DistributionalDQN.support m) = [K'] ->
  shape state = B :: srest ->
  sequential_forward (DistributionalDQN.fc m) state = Ok y ->
  shape y = [B; A * K] -> 0 < B -> 0 < K ->
  K <> K' -> K <> 1 -> K' <> 1 ->
  DistributionalDQN.forward state m = Err RuntimeError.
Proof.
  intros Hc Hn Hsm Hsup Hst Hy Hsy HB HK Hne H1 H1'.
  set (dist := mkTensor [B; A; K] (data y)).
  destruct (softmax_forward_ok 1 dist A eq_refl) as (probs & Hp & Hsp).
  assert (Hw : tmul probs (DistributionalDQN.support m) = Err RuntimeError).
  { unfold tmul, pointwise. rewrite Hsp, Hsup. cbn [dist shape rev app bshape].
    destruct (Nat.eqb_spec K K'); [contradiction|].
    destruct (Nat.eqb_spec K 1); [contradiction|].
    destruct (Nat.eqb_spec K' 1); [contradiction|]. reflexivity. }
  unfold DistributionalDQN.forward, mbind, attr, lift, mret.
  rewrite (size0 state B srest Hst), Hc, Hy, Hn.
  rewrite (view_atoms y B A K Hsy HB HK). fold dist.
  rewrite Hsm. cbn [softmax_call]. rewrite Hp, Hw.
  reflexivity.
Qed.

(** C1 (amended).  Without convolution, on a batch (B, d) of states, a
    constructed distributional network whose support has [n_atoms] entries
    returns a pair and is left unchanged.  The first component is the raw
    output of the head, reshaped to (B, A, n_atoms): unnormalised scores,
    not probabilities.  The second component has shape (B, A) and is the sum
    over the atom axis of the softmax module's output on those scores
    multiplied by the support. *)
Theorem distributional_forward_returns_scores_and_values
  (theta : nat -> R) (input_dim : list nat) (A n : nat) (Vmin Vmax : float)
  (m : DistributionalDQN.t) (state : Tensor) (B d : nat) :
  DistributionalDQN.init theta input_dim A false n Vmin Vmax = Ok m ->
  shape (DistributionalDQN.support m) = [n] ->
  nth_error input_dim 0 = Some d ->
  shape state = [B; d] ->
  0 < B -> 0 < n ->
  exists y dist q probs weighted,
    DistributionalDQN.forward state m = Ok ((dist, q), m)
    /\ sequential_forward (DistributionalDQN.fc m) state = Ok y
    /\ dist = mkTensor [B; A; n] (data y)
    /\ softmax_forward (DistributionalDQN.softmax m) dist = Ok probs
    /\ tmul probs (DistributionalDQN.support m) = Ok weighted
    /\ sum_dim weighted 2 = Ok q
    /\ shape q = [B; A].
Proof.
  intros Hinit Hsup Hd Hst HB Hn.
  destruct (distributional_init_nonconv_inv _ _ _ _ _ _ _ Hinit)
    as (d' & rest & dz & k & -> & ->).
  cbn in Hd. injection Hd as ->.
  cbn [DistributionalDQN.support] in Hsup.
  destruct (fresh_head_ok theta d (A * n) state B Hst) as (y & Hy & Hsy).
  destruct (distributional_forward_run
              (DistributionalDQN.mk (d :: rest) A n false Vmin Vmax dz
                 (support_of Vmin dz k) None (fresh_head theta d (A * n)) 1)
              state y B A n [d] eq_refl eq_refl eq_refl Hsup Hst Hy Hsy HB Hn)
    as (probs & weighted & q & Hf & Hp & Hw & Hq & Hsq).
  exists y, (mkTensor [B; A; n] (data y)), q, probs, weighted.
  repeat split; assumption.
Qed.

Lemma distributional_example_init :
  DistributionalDQN.init (fun _ => (-1)%R) [1] 1 false 2 0%float 1%float
  = Ok distributional_example.
Proof.
  apply (distributional_init_nonconv (fun _ => (-1)%R) 1 [] 1 2
           0%float 1%float 1%float 2); vm_compute; reflexivity.
Qed.

Lemma C1_witness :
  exists y dist q probs weighted,
    DistributionalDQN.forward (zeros [1; 1]) distributional_example
    = Ok ((dist, q), distributional_example)
    /\ sequential_forward (DistributionalDQN.fc distributional_example)
         (zeros [1; 1]) = Ok y
    /\ dist = mkTensor [1; 1; 2] (data y)
    /\ softmax_forward (DistributionalDQN.softmax distributional_example)
         dist = Ok probs
    /\ tmul probs (DistributionalDQN.support distributional_example)
       = Ok weighted
    /\ sum_dim weighted 2 = Ok q
    /\ shape q = [1; 1].
Proof.
  exact (distributional_forward_returns_scores_and_values
           (fun _ => (-1)%R) [1] 1 2 0%float 1%float distributional_example
           (zeros [1; 1]) 1 1 distributional_example_init eq_refl eq_refl
           eq_refl (le_n 1) (le_S 1 1 (le_n 1))).
Defined.

Lemma Rmax_0_nonpos (x : R) : (x <= 0)%R -> Rmax 0 x = 0%R.
Proof. intros H. now apply Rmax_left. Qed.

(** The scores the example head computes on the zero state are all -1. *)
Lemma distributional_example_scores :
  sequential_forward (DistributionalDQN.fc distributional_example)
    (zeros [1; 1])
  = Ok (rows 1 2 (fun _ => (-1)%R)).
Proof.
  unfold distributional_example. cbn [DistributionalDQN.fc]. unfold fresh_head.
  rewrite (mlp_forward_ok _ _ _ (zeros [1; 1]) 1) by reflexivity.
  f_equal. unfold mlp_out.
  change (zeros [1; 1]) with (rows 1 1 (fun _ => 0%R)).
  rewrite fresh_linear_rows, relu_rows, fresh_linear_rows, relu_rows,
    fresh_linear_rows.
  apply rows_ext. intros _ _.
  change (INR 1) with 1%R.
  rewrite (Rmax_0_nonpos (-1 + 1 * (0 * -1))) by lra.
  rewrite (Rmax_0_nonpos (-1 + INR 128 * (0 * -1))) by lra.
  lra.
Qed.

(** C1 (as stated) fails.  The constructed example network, evaluated on
    the zero state, returns as first component the scores (-1, -1) of its
    single action: they are negative and sum to -2, so the first component
    is not a probability distribution over the atoms. *)
Lemma distributional_first_component_is_not_a_distribution :
  DistributionalDQN.init (fun _ => (-1)%R) [1] 1 false 2 0%float 1%float
  = Ok distributional_example
  /\ exists dist q,
       DistributionalDQN.forward (zeros [1; 1]) distributional_example
       = Ok ((dist, q), distributional_example)
       /\ shape dist = [1; 1; 2]
       /\ rd dist 0 = (-1)%R /\ rd dist 1 = (-1)%R
       /\ (rd dist 0 < 0)%R
       /\ (rd dist 0 + rd dist 1)%R <> 1%R.
Proof.
  split; [exact distributional_example_init|].
  destruct (distributional_forward_run distributional_example (zeros [1; 1])
              (rows 1 2 (fun _ => (-1)%R)) 1 1 2 [1] eq_refl eq_refl eq_refl
              eq_refl eq_refl distributional_example_scores eq_refl
              (le_n 1) (le_S 1 1 (le_n 1)))
    as (probs & weighted & q & Hf & _).
  eexists _, q. split; [exact Hf|].
  split; [reflexivity|].
  assert (E0 : rd (mkTensor [1; 1; 2] (data (rows 1 2 (fun _ => (-1)%R)))) 0
               = (-1)%R).
  { unfold rows. cbn [data]. now rewrite rd_mk by (simpl; lia). }
  assert (E1 : rd (mkTensor [1; 1; 2] (data (rows 1 2 (fun _ => (-1)%R)))) 1
               = (-1)%R).
  { unfold rows. cbn [data]. now rewrite rd_mk by (simpl; lia). }
  rewrite E0, E1. repeat split; lra.
Qed.

(** At the failing configuration: [n_atoms = 12] on the default value
    range.  The step is 20/11; in binary64 [((10 + step) - (-10)) / step]
    is the double just above 12, whose ceiling is 13. *)
Lemma support_length_12 :
  float_div (PrimFloat.sub 10 (-10)) (Z2float (Z.of_nat 12 - 1))
  = Ok 0x1.d1745d1745d17p+0%float
  /\ arange_len (-10) (PrimFloat.add 10 0x1.d1745d1745d17p+0)
       0x1.d1745d1745d17p+0 = Ok 13.
Proof. split; vm_compute; reflexivity. Qed.

(** At the default configuration the support has its 51 entries. *)
Lemma support_length_default :
  float_div (PrimFloat.sub 10 (-10)) (Z2float (Z.of_nat 51 - 1))
  = Ok 0x1.999999999999ap-2%float
  /\ arange_len (-10) (PrimFloat.add 10 0x1.999999999999ap-2)
       0x1.999999999999ap-2 = Ok 51.
Proof. split; vm_compute; reflexivity. Qed.

(** C7, at a failing input.  [DistributionalDQN(input_dim, output_dim,
    use_conv=False, n_atoms=12, Vmin=-10., Vmax=10.)] is constructed, and
    its support has 13 entries, not 12; no batch of states can then be
    evaluated, the 12 atoms of the reshaped head output not matching the 13
    entries of the support. *)
Theorem support_has_one_atom_too_many
  (theta : nat -> R) (d : nat) (rest : list nat) (A : nat) :
  exists m,
    DistributionalDQN.init theta (d :: rest) A false 12
      (-10)%float 10%float = Ok m
    /\ DistributionalDQN.n_atoms m = 12
    /\ shape (DistributionalDQN.support m) = [13]
    /\ forall state B,
         shape state = [B; d] -> 0 < B ->
         DistributionalDQN.forward state m = Err RuntimeError.
Proof.
  destruct support_length_12 as [Hdz Hlen].
  eexists. split.
  { exact (distributional_init_nonconv theta d rest A 12 (-10)%float
             10%float _ 13 Hdz Hlen). }
  split; [reflexivity|]. split; [reflexivity|].
  intros state B Hst HB.
  destruct (fresh_head_ok theta d (A * 12) state B Hst) as (y & Hy & Hsy).
  apply (distributional_forward_support_mismatch _ state y B A 12 13 [d]);
    try reflexivity; try assumption; lia.
Qed.

(** The support is never written after construction: every method of the
    class returns the object it was given. *)
Lemma support_is_read_only (m m' : DistributionalDQN.t) (state : Tensor) :
  (forall r, DistributionalDQN.forward state m = Ok (r, m') ->
             DistributionalDQN.support m' = DistributionalDQN.support m)
  /\ (forall r, DistributionalDQN.get_q_vals state m = Ok (r, m') ->
                DistributionalDQN.support m' = DistributionalDQN.support m)
  /\ (forall r, DistributionalDQN.conv_features state m = Ok (r, m') ->
                DistributionalDQN.support m' = DistributionalDQN.support m).
Proof.
  repeat split; intros r H.
  - now apply distributional_forward_readonly in H; subst.
  - now apply distributional_get_q_vals_readonly in H; subst.
  - now apply distributional_conv_features_readonly in H; subst.
Qed.

(** ** RecurrentDQN *)

Lemma recurrent_init_nonconv (theta : nat -> R) (d : nat) (rest : list nat)
  (gs out : nat) :
  RecurrentDQN.init theta (d :: rest) gs out false
  = Ok (recurrent_fresh theta d rest gs out).
Proof. reflexivity. Qed.

Lemma recurrent_init_inv (theta : nat -> R) (input_dim : list nat)
  (gs out : nat) (uc : bool) (m : RecurrentDQN.t) :
  RecurrentDQN.init theta input_dim gs out uc = Ok m ->
  uc = false
  /\ exists d rest,
       input_dim = d :: rest /\ m = recurrent_fresh theta d rest gs out.
Proof.
  intros H. destruct uc.
  - rewrite recurrent_init_conv in H. discriminate.
  - split; [reflexivity|].
    destruct input_dim as [|d rest]; [discriminate|].
    rewrite recurrent_init_nonconv in H. injection H as <-.
    now exists d, rest.
Qed.

(** [hidden_state.reshape(-1, gru_size)] *)
Lemma view_hidden (t : Tensor) (N gs : nat) :
  numel (shape t) = N * gs -> 0 < gs ->
  view t [None; Some gs] = Ok (mkTensor [N; gs] (data t)).
Proof.
  intros Hn Hgs. unfold view. cbn [holes filter length known fold_right].
  rewrite Hn, Nat.mul_1_r.
  destruct (Nat.eqb_spec gs 0) as [?|_]; [lia|].
  rewrite Nat.Div0.mod_mul, Nat.div_mul by lia. reflexivity.
Qed.

Lemma gru_forward_ok (c : GRUCell) (x h : Tensor) (N : nat) :
  shape x = [N; input_size c] -> shape h = [N; hidden_size c] ->
  exists h',
    gru_forward c x h = Ok h' /\ shape h' = [N; hidden_size c].
Proof.
  intros Hx Hh. unfold gru_forward. rewrite Hx, Hh, !Nat.eqb_refl.
  eexists. split; reflexivity.
Qed.

Lemma recurrent_forward_fresh (theta : nat -> R) (d : nat) (rest : list nat)
  (gs out : nat) (state hidden : Tensor) (N : nat) :
  shape state = [N; d] -> numel (shape hidden) = N * gs -> 0 < gs ->
  let m := recurrent_fresh theta d rest gs out in
  exists q h,
    RecurrentDQN.forward state hidden m = Ok ((q, h), m)
    /\ gru_forward (RecurrentDQN.gru m)
         (relu (linear_out (RecurrentDQN.linear1 m) state [N]))
         (mkTensor [N; gs] (data hidden)) = Ok h
    /\ linear_forward (RecurrentDQN.linear2 m) h = Ok q
    /\ shape q = [N; out] /\ shape h = [N; gs].
Proof.
  intros Hst Hh Hgs m.
  set (x := relu (linear_out (RecurrentDQN.linear1 m) state [N])).
  destruct (gru_forward_ok (RecurrentDQN.gru m) x
              (mkTensor [N; gs] (data hidden)) N eq_refl eq_refl)
    as (h & Hgru & Hsh).
  cbn [RecurrentDQN.gru m recurrent_fresh hidden_size mkGRUCell] in Hsh.
  exists (linear_out (RecurrentDQN.linear2 m) h [N]), h.
  assert (Hq : linear_forward (RecurrentDQN.linear2 m) h
               = Ok (linear_out (RecurrentDQN.linear2 m) h [N])).
  { apply linear_forward_ok. exact Hsh. }
  split; [|split; [exact Hgru|split; [exact Hq|split; [reflexivity|exact Hsh]]]].
  unfold RecurrentDQN.forward, mbind, attr, lift, mret.
  cbn [RecurrentDQN.use_conv m recurrent_fresh].
  fold m.
  rewrite (linear_forward_ok (RecurrentDQN.linear1 m) state [N])
    by exact Hst.
  cbn [RecurrentDQN.gru_size m recurrent_fresh].
  rewrite (view_hidden hidden N gs Hh Hgs).
  fold m. fold x. rewrite Hgru, Hq. reflexivity.
Qed.

(** C8.  On a batch (N, d) of states and a hidden state of N * gru_size
    entries, a constructed recurrent network returns the pair (q, h): h is
    the state the recurrent cell computes from the projected input and the
    hidden state passed in, q the output layer applied to h.  The model
    returned with the pair is the model the call started from, and this
    holds of every call of [forward] that returns: the hidden state lives
    in the arguments and the result, never in the object. *)
Theorem recurrent_forward_returns_q_and_hidden
  (theta : nat -> R) (input_dim : list nat) (gs out : nat) (uc : bool)
  (m : RecurrentDQN.t) (state hidden : Tensor) (N d : nat) :
  RecurrentDQN.init theta input_dim gs out uc = Ok m ->
  nth_error input_dim 0 = Some d ->
  shape state = [N; d] ->
  numel (shape hidden) = N * gs ->
  0 < gs ->
  (exists q h,
     RecurrentDQN.forward state hidden m = Ok ((q, h), m)
     /\ gru_forward (RecurrentDQN.gru m)
          (relu (linear_out (RecurrentDQN.linear1 m) state [N]))
          (mkTensor [N; gs] (data hidden)) = Ok h
     /\ linear_forward (RecurrentDQN.linear2 m) h = Ok q
     /\ shape q = [N; out] /\ shape h = [N; gs])
  /\ (forall s' h' r m',
        RecurrentDQN.forward s' h' m = Ok (r, m') -> m' = m)
  /\ (forall r m', RecurrentDQN.init_hidden m = Ok (r, m') -> m' = m).
Proof.
  intros Hinit Hd Hst Hh Hgs.
  destruct (recurrent_init_inv _ _ _ _ _ _ Hinit)
    as (-> & d' & rest & -> & ->).
  cbn in Hd. injection Hd as ->.
  split; [|split].
  - exact (recurrent_forward_fresh theta d rest gs out state hidden N
             Hst Hh Hgs).
  - intros s' h' r m' H. exact (recurrent_forward_readonly s' h' _ _ _ H).
  - intros r m' H. exact (recurrent_init_hidden_readonly _ _ _ H).
Qed.

Lemma C8_witness :
  (exists q h,
     RecurrentDQN.forward (zeros [1; 4]) (zeros [1; 8])
       (recurrent_fresh (fun _ => 0%R) 4 [] 8 2)
     = Ok ((q, h), recurrent_fresh (fun _ => 0%R) 4 [] 8 2)
     /\ gru_forward (RecurrentDQN.gru (recurrent_fresh (fun _ => 0%R) 4 [] 8 2))
          (relu (linear_out
                   (RecurrentDQN.linear1
                      (recurrent_fresh (fun _ => 0%R) 4 [] 8 2))
                   (zeros [1; 4]) [1]))
          (mkTensor [1; 8] (data (zeros [1; 8]))) = Ok h
     /\ linear_forward
          (RecurrentDQN.linear2 (recurrent_fresh (fun _ => 0%R) 4 [] 8 2)) h
        = Ok q
     /\ shape q = [1; 2] /\ shape h = [1; 8])
  /\ (forall s' h' r m',
        RecurrentDQN.forward s' h'
          (recurrent_fresh (fun _ => 0%R) 4 [] 8 2) = Ok (r, m') ->
        m' = recurrent_fresh (fun _ => 0%R) 4 [] 8 2)
  /\ (forall r m',
        RecurrentDQN.init_hidden (recurrent_fresh (fun _ => 0%R) 4 [] 8 2)
        = Ok (r, m') ->
        m' = recurrent_fresh (fun _ => 0%R) 4 [] 8 2).
Proof.
  exact (recurrent_forward_returns_q_and_hidden (fun _ => 0%R) [4] 8 2 false
           (recurrent_fresh (fun _ => 0%R) 4 [] 8 2)
           (zeros [1; 4]) (zeros [1; 8]) 1 4
           (recurrent_init_nonconv (fun _ => 0%R) 4 [] 8 2)
           eq_refl eq_refl eq_refl (Nat.lt_0_succ 7)).
Defined.

(** ** DuelingDQN: construction and the convolutional mode *)

Lemma dueling_init_fresh (theta : nat -> R) (d : nat) (rest : list nat)
  (out : nat) (uc : bool) :
  DuelingDQN.init theta (d :: rest) out uc
  = Ok (dueling_fresh theta d rest out uc).
Proof. destruct uc; reflexivity. Qed.

Lemma dueling_init_inv (theta : nat -> R) (input_dim : list nat) (out : nat)
  (uc : bool) (m : DuelingDQN.t) :
  DuelingDQN.init theta input_dim out uc = Ok m ->
  exists d rest,
    input_dim = d :: rest /\ m = dueling_fresh theta d rest out uc.
Proof.
  intros H. destruct input_dim as [|d rest].
  - destruct uc; discriminate.
  - rewrite dueling_init_fresh in H. injection H as <-. now exists d, rest.
Qed.

Lemma value_fresh_ok (theta : nat -> R) (off : nat) (feats : Tensor)
  (N : nat) :
  shape feats = [N; 128] ->
  exists v,
    sequential_forward (value_fresh theta off) feats = Ok v
    /\ shape v = [N; 1].
Proof.
  intros Hs. unfold value_fresh. seq_step.
  rewrite (linear_forward_ok _ feats [N]) by exact Hs. seq_step.
  rewrite (linear_forward_ok _ _ [N]) by reflexivity.
  eexists. split; reflexivity.
Qed.

Lemma advantage_fresh_ok (theta : nat -> R) (off out : nat) (feats : Tensor)
  (N : nat) :
  shape feats = [N; 128] ->
  exists a,
    sequential_forward (advantage_fresh theta off out) feats = Ok a
    /\ shape a = [N; out].
Proof.
  intros Hs. unfold advantage_fresh. seq_step.
  rewrite (linear_forward_ok _ feats [N]) by exact Hs. seq_step.
  rewrite (linear_forward_ok _ _ [N]) by reflexivity.
  eexists. split; reflexivity.
Qed.

Lemma value_fresh_mismatch (theta : nat -> R) (off : nat) (feats : Tensor)
  (N F : nat) :
  shape feats = [N; F] -> F <> 128 ->
  sequential_forward (value_fresh theta off) feats = Err RuntimeError.
Proof.
  intros Hs HF. unfold value_fresh. seq_step.
  now rewrite (linear_forward_mismatch (mkLinear theta off 128 128)
                 feats [N] F Hs HF).
Qed.

(** A constructed dueling network on features of width 128. *)
Lemma dueling_fresh_forward (theta : nat -> R) (d : nat) (rest : list nat)
  (out : nat) (uc : bool) (state feats : Tensor) (N : nat) :
  let m := dueling_fresh theta d rest out uc in
  dueling_features m state = Ok feats ->
  shape feats = [N; 128] ->
  exists q, DuelingDQN.forward state m = Ok (q, m) /\ shape q = [N; out].
Proof.
  intros m Hf Hs.
  destruct (value_fresh_ok theta
              (if uc then conv_stack_params d else linear_params d 128)
              feats N Hs) as (v & Hv & Hsv).
  destruct (advantage_fresh_ok theta
              (if uc then conv_stack_params d else linear_params d 128)
              out feats N Hs) as (a & Ha & Hsa).
  destruct (combine_entries v a N out Hsv Hsa) as (q & Hq & Hsq & _).
  exists q. split; [|exact Hsq].
  rewrite (dueling_forward_steps m state feats v a Hf Hv Ha).
  now rewrite Hq.
Qed.

(** A constructed dueling network on features of any other width. *)
Lemma dueling_fresh_forward_mismatch (theta : nat -> R) (d : nat)
  (rest : list nat) (out : nat) (uc : bool) (state feats : Tensor)
  (N F : nat) :
  let m := dueling_fresh theta d rest out uc in
  dueling_features m state = Ok feats ->
  shape feats = [N; F] -> F <> 128 ->
  DuelingDQN.forward state m = Err RuntimeError.
Proof.
  intros m Hf Hs HF. apply dueling_features_run in Hf.
  unfold DuelingDQN.forward.
  unfold mbind at 1. unfold attr at 1.
  unfold mbind at 1. rewrite Hf.
  unfold mbind, attr, lift.
  cbn [DuelingDQN.value_stream m dueling_fresh].
  now rewrite (value_fresh_mismatch theta _ feats N F Hs HF).
Qed.

Lemma dueling_conv_features_ok (theta : nat -> R) (d : nat)
  (rest : list nat) (out : nat) (x : Tensor) (N H W : nat) :
  shape x = [N; d; H; W] -> 0 < N ->
  conv_fits H = true -> conv_fits W = true ->
  exists feats,
    dueling_features (dueling_fresh theta d rest out true) x = Ok feats
    /\ shape feats = [N; conv_features_width H W].
Proof.
  intros Hs HN HH HW.
  destruct (conv_stack_ok theta 0 d x N H W Hs HH HW) as (y & Hy & Hsy).
  unfold dueling_features, returns.
  cbn [DuelingDQN.use_conv dueling_fresh].
  unfold DuelingDQN.conv_features, mbind, attr, lift.
  cbn [DuelingDQN.features dueling_fresh]. rewrite Hy.
  rewrite (size0 y N _ Hsy), (view_flatten y N _ Hsy HN).
  eexists. split; reflexivity.
Qed.

Lemma dueling_nonconv_features_ok (theta : nat -> R) (d : nat)
  (rest : list nat) (out : nat) (x : Tensor) (N : nat) :
  shape x = [N; d] ->
  exists feats,
    dueling_features (dueling_fresh theta d rest out false) x = Ok feats
    /\ shape feats = [N; 128].
Proof.
  intros Hs. unfold dueling_features, returns.
  cbn [DuelingDQN.use_conv dueling_fresh].
  unfold mbind, attr, lift.
  cbn [DuelingDQN.features dueling_fresh]. seq_step.
  rewrite (linear_forward_ok _ x [N]) by exact Hs. seq_step.
  eexists. split; reflexivity.
Qed.

(** C6 (amended).  The dueling constructor never calls [feature_size]; with
    [use_conv=True] it returns a model.  On a non-empty batch of images that
    the three convolutions accept, [forward] returns action values of shape
    (N, output_dim) when the convolutions leave 128 features per image, and
    raises a shape error in the value stream otherwise: the width 128 of the
    streams is fixed in the constructor, not probed. *)
Theorem dueling_conv_mode_needs_128_features
  (theta : nat -> R) (input_dim : list nat) (out : nat) (m : DuelingDQN.t)
  (state : Tensor) (N d H W : nat) :
  DuelingDQN.init theta input_dim out true = Ok m ->
  nth_error input_dim 0 = Some d ->
  shape state = [N; d; H; W] ->
  0 < N ->
  conv_fits H = true -> conv_fits W = true ->
  (conv_features_width H W = 128 ->
   exists q, DuelingDQN.forward state m = Ok (q, m) /\ shape q = [N; out])
  /\ (conv_features_width H W <> 128 ->
      DuelingDQN.forward state m = Err RuntimeError).
Proof.
  intros Hinit Hd Hs HN HH HW.
  destruct (dueling_init_inv _ _ _ _ _ Hinit) as (d' & rest & -> & ->).
  cbn in Hd. injection Hd as ->.
  destruct (dueling_conv_features_ok theta d rest out state N H W
              Hs HN HH HW) as (feats & Hf & Hsf).
  split; intros HF.
  - rewrite HF in Hsf.
    exact (dueling_fresh_forward theta d rest out true state feats N Hf Hsf).
  - exact (dueling_fresh_forward_mismatch theta d rest out true state feats
             N _ Hf Hsf HF).
Qed.

Lemma C6_witness :
  (conv_features_width 36 44 = 128 ->
   exists q,
     DuelingDQN.forward (zeros [1; 1; 36; 44])
       (dueling_fresh (fun _ => 0%R) 1 [36; 44] 2 true)
     = Ok (q, dueling_fresh (fun _ => 0%R) 1 [36; 44] 2 true)
     /\ shape q = [1; 2])
  /\ (conv_features_width 36 44 <> 128 ->
      DuelingDQN.forward (zeros [1; 1; 36; 44])
        (dueling_fresh (fun _ => 0%R) 1 [36; 44] 2 true)
      = Err RuntimeError).
Proof.
  exact (dueling_conv_mode_needs_128_features (fun _ => 0%R) [1; 36; 44] 2
           (dueling_fresh (fun _ => 0%R) 1 [36; 44] 2 true)
           (zeros [1; 1; 36; 44]) 1 1 36 44
           (dueling_init_fresh (fun _ => 0%R) 1 [36; 44] 2 true)
           eq_refl eq_refl (le_n 1) eq_refl eq_refl).
Defined.

(** C6 (as stated) fails.  [DuelingDQN((1, 36, 44), 2, use_conv=True)] is
    constructed, and evaluates a 36 x 44 one-channel image to a pair of
    action values.  Its [feature_size] does take an [input_dim] argument:
    called with one, it gets past the argument check and stops at the
    unbound name [autograd]. *)
Lemma dueling_conv_mode_is_usable :
  DuelingDQN.init (fun _ => 0%R) [1; 36; 44] 2 true
  = Ok (dueling_fresh (fun _ => 0%R) 1 [36; 44] 2 true)
  /\ (exists q,
        DuelingDQN.forward (zeros [1; 1; 36; 44])
          (dueling_fresh (fun _ => 0%R) 1 [36; 44] 2 true)
        = Ok (q, dueling_fresh (fun _ => 0%R) 1 [36; 44] 2 true)
        /\ shape q = [1; 2])
  /\ DuelingDQN.feature_size
       (DuelingDQN.features (dueling_fresh (fun _ => 0%R) 1 [36; 44] 2 true))
       [[1; 36; 44]] = Err NameError.
Proof.
  split; [apply dueling_init_fresh|]. split; [|reflexivity].
  destruct (dueling_conv_features_ok (fun _ => 0%R) 1 [36; 44] 2
              (zeros [1; 1; 36; 44]) 1 36 44 eq_refl (le_n 1)
              eq_refl eq_refl) as (feats & Hf & Hsf).
  exact (dueling_fresh_forward (fun _ => 0%R) 1 [36; 44] 2 true
           (zeros [1; 1; 36; 44]) feats 1 Hf Hsf).
Qed.

(** ** Width of the heads *)

Lemma vanilla_init_nonconv (theta : nat -> R) (d : nat) (rest : list nat)
  (out : nat) :
  VanillaDQN.init theta (d :: rest) out false
  = Ok (VanillaDQN.mk (d :: rest) out false None (fresh_head theta d out)).
Proof. reflexivity. Qed.

Lemma vanilla_init_inv (theta : nat -> R) (input_dim : list nat) (out : nat)
  (uc : bool) (m : VanillaDQN.t) :
  VanillaDQN.init theta input_dim out uc = Ok m ->
  uc = false
  /\ exists d rest,
       input_dim = d :: rest
       /\ m = VanillaDQN.mk (d :: rest) out false None
                (fresh_head theta d out).
Proof.
  intros H. destruct uc.
  - rewrite vanilla_init_conv in H. destruct input_dim; discriminate.
  - split; [reflexivity|].
    destruct input_dim as [|d rest]; [discriminate|].
    rewrite vanilla_init_nonconv in H. injection H as <-.
    now exists d, rest.
Qed.

Lemma distributional_init_inv (theta : nat -> R) (input_dim : list nat)
  (A n : nat) (uc : bool) (Vmin Vmax : float) (m : DistributionalDQN.t) :
  DistributionalDQN.init theta input_dim A uc n Vmin Vmax = Ok m ->
  uc = false
  /\ exists d rest dz k,
       input_dim = d :: rest
       /\ m = DistributionalDQN.mk (d :: rest) A n false Vmin Vmax dz
                (support_of Vmin dz k) None (fresh_head theta d (A * n)) 1.
Proof.
  intros H. destruct uc.
  - pose proof (distributional_init_conv theta input_dim A n Vmin Vmax) as E.
    rewrite H in E. discriminate.
  - split; [reflexivity|].
    exact (distributional_init_nonconv_inv _ _ _ _ _ _ _ H).
Qed.

(** C4.  Whatever the configuration, a model that its constructor returns
    has a head of the declared width.  The last layer of the vanilla head
    has [output_dim] units, that of the distributional head
    [output_dim * n_atoms], the output layer after the recurrent cell
    [output_dim].  The dueling head ends in two parallel layers: the
    advantage stream has [output_dim] units, the value stream a single unit
    that is broadcast over the actions, and the values the head returns on
    features of its width have shape (N, output_dim). *)
Theorem head_width_is_declared_action_count
  (theta : nat -> R)
  (v_in : list nat) (v_out : nat) (v_conv : bool) (vm : VanillaDQN.t)
  (d_in : list nat) (d_out : nat) (d_conv : bool) (dm : DuelingDQN.t)
  (x_in : list nat) (x_out x_atoms : nat) (x_conv : bool)
  (x_min x_max : float) (xm : DistributionalDQN.t)
  (r_in : list nat) (r_gru r_out : nat) (r_conv : bool)
  (rm : RecurrentDQN.t) :
  VanillaDQN.init theta v_in v_out v_conv = Ok vm ->
  DuelingDQN.init theta d_in d_out d_conv = Ok dm ->
  DistributionalDQN.init theta x_in x_out x_conv x_atoms x_min x_max
  = Ok xm ->
  RecurrentDQN.init theta r_in r_gru r_out r_conv = Ok rm ->
  head_width (VanillaDQN.fc vm) = Some v_out
  /\ (head_width (DuelingDQN.advantage_stream dm) = Some d_out
      /\ head_width (DuelingDQN.value_stream dm) = Some 1
      /\ forall state feats N,
           dueling_features dm state = Ok feats ->
           shape feats = [N; 128] ->
           exists q,
             DuelingDQN.forward state dm = Ok (q, dm)
             /\ shape q = [N; d_out])
  /\ head_width (DistributionalDQN.fc xm) = Some (x_out * x_atoms)
  /\ out_features (RecurrentDQN.linear2 rm) = r_out.
Proof.
  intros Hv Hd Hx Hr.
  destruct (vanilla_init_inv _ _ _ _ _ Hv) as (_ & vd & vrest & _ & ->).
  destruct (dueling_init_inv _ _ _ _ _ Hd) as (dd & drest & _ & ->).
  destruct (distributional_init_inv _ _ _ _ _ _ _ _ Hx)
    as (_ & xd & xrest & dz & k & _ & ->).
  destruct (recurrent_init_inv _ _ _ _ _ _ Hr) as (_ & rd' & rrest & _ & ->).
  split; [reflexivity|]. split; [|split; reflexivity].
  split; [reflexivity|]. split; [reflexivity|].
  intros state feats N Hf Hs.
  exact (dueling_fresh_forward theta dd drest d_out d_conv state feats N
           Hf Hs).
Qed.

Lemma C4_witness :
  head_width
    (VanillaDQN.fc (VanillaDQN.mk [4] 2 false None
                      (fresh_head (fun _ => (-1)%R) 4 2))) = Some 2
  /\ (head_width (DuelingDQN.advantage_stream
                    (dueling_fresh (fun _ => (-1)%R) 4 [] 2 false)) = Some 2
      /\ head_width (DuelingDQN.value_stream
                       (dueling_fresh (fun _ => (-1)%R) 4 [] 2 false)) = Some 1
      /\ forall state feats N,
           dueling_features (dueling_fresh (fun _ => (-1)%R) 4 [] 2 false) state
           = Ok feats ->
           shape feats = [N; 128] ->
           exists q,
             DuelingDQN.forward state
               (dueling_fresh (fun _ => (-1)%R) 4 [] 2 false)
             = Ok (q, dueling_fresh (fun _ => (-1)%R) 4 [] 2 false)
             /\ shape q = [N; 2])
  /\ head_width (DistributionalDQN.fc distributional_example) = Some (1 * 2)
  /\ out_features
       (RecurrentDQN.linear2 (recurrent_fresh (fun _ => (-1)%R) 4 [] 8 2)) = 2.
Proof.
  exact (head_width_is_declared_action_count (fun _ => (-1)%R)
           [4] 2 false _
           [4] 2 false _
           [1] 1 2 false 0%float 1%float distributional_example
           [4] 8 2 false _
           (vanilla_init_nonconv (fun _ => (-1)%R) 4 [] 2)
           (dueling_init_fresh (fun _ => (-1)%R) 4 [] 2 false)
           distributional_example_init
           (recurrent_init_nonconv (fun _ => (-1)%R) 4 [] 8 2)).
Defined.

(** ** The axis of the softmax in DistributionalDQN.forward *)

Lemma rsum_div (n : nat) (f : nat -> R) (s : R) :
  rsum n (fun j => (f j / s)%R) = (rsum n f / s)%R.
Proof.
  induction n as [|n IH]; cbn [rsum]; [lra|]. rewrite IH. lra.
Qed.

Lemma rsum_exp_pos (n : nat) (f : nat -> R) :
  0 < n -> (0 < rsum n (fun j => exp (f j)))%R.
Proof.
  intros Hn. induction n as [|n IH]; [lia|].
  cbn [rsum]. pose proof (exp_pos (f n)) as Hp.
  destruct n as [|n]; [simpl; lra|].
  assert (0 < rsum (S n) (fun j => exp (f j)))%R by (apply IH; lia).
  lra.
Qed.

(** Entry (b, a, k) of [nn.Softmax(dim=1)] on a tensor (B, A, K): the
    exponentials are normalised along the actions [a], atom [k] fixed. *)
Lemma softmax_dim1_entry (x p : Tensor) (B A K b a k : nat) :
  shape x = [B; A; K] ->
  softmax_forward 1 x = Ok p ->
  b < B -> a < A -> k < K ->
  rd p ((b * A + a) * K + k)
  = (exp (rd x ((b * A + a) * K + k))
     / rsum A (fun j => exp (rd x ((b * A + j) * K + k))))%R.
Proof.
  intros Hs Hp Hb Ha Hk. unfold softmax_forward in Hp.
  rewrite Hs in Hp. cbn [nth_error skipn numel fold_right] in Hp.
  injection Hp as <-.
  assert (Hi : (b * A + a) * K + k < B * (A * (K * 1))).
  { assert (H1 : b * A + a + 1 <= B * A)
      by (pose proof (Nat.mul_le_mono_r (b + 1) B A ltac:(lia)); lia).
    pose proof (Nat.mul_le_mono_r _ _ K H1). lia. }
  rewrite rd_mk by exact Hi.
  rewrite Nat.mul_1_r.
  replace (((b * A + a) * K + k) mod K) with k
    by (symmetry; apply mod_row; exact Hk).
  replace (((b * A + a) * K + k) / (A * K)) with b; [reflexivity|].
  symmetry. replace ((b * A + a) * K + k) with (b * (A * K) + (a * K + k))
    by lia.
  apply div_row.
  pose proof (Nat.mul_le_mono_r (a + 1) A K ltac:(lia)). lia.
Qed.

(** For every batch element and every atom, the weights of the actions sum
    to 1: the normalisation runs over the actions. *)
Lemma softmax_dim1_sums_over_actions (x p : Tensor) (B A K b k : nat) :
  shape x = [B; A; K] ->
  softmax_forward 1 x = Ok p ->
  b < B -> 0 < A -> k < K ->
  rsum A (fun a => rd p ((b * A + a) * K + k)) = 1%R.
Proof.
  intros Hs Hp Hb HA Hk.
  rewrite (rsum_ext A _
             (fun a => (exp (rd x ((b * A + a) * K + k))
                        / rsum A (fun j =>
                            exp (rd x ((b * A + j) * K + k))))%R))
    by (intros a Ha; apply (softmax_dim1_entry x p B A K b a k); assumption).
  rewrite rsum_div.
  pose proof (rsum_exp_pos A (fun j => rd x ((b * A + j) * K + k)) HA) as Hpos.
  cbv beta in Hpos. field. lra.
Qed.

(** * Further properties of the four classes *)

(** ** VanillaDQN without convolution *)

(** X1.  Without convolution a constructed [VanillaDQN] accepts exactly the
    batches whose rows have width [input_dim[0]]: on a batch (N, d) it
    returns the output of its three-layer head, of shape (N, output_dim),
    and stays as it was; on a batch (N, w) with any other width [w] it
    raises RuntimeError. *)
Theorem vanilla_forward_accepts_rows_of_input_width
  (theta : nat -> R) (input_dim : list nat) (out : nat) (uc : bool)
  (m : VanillaDQN.t) (state : Tensor) (N d w : nat) :
  VanillaDQN.init theta input_dim out uc = Ok m ->
  nth_error input_dim 0 = Some d ->
  shape state = [N; w] ->
  (w = d ->
   exists q,
     VanillaDQN.forward state m = Ok (q, m)
     /\ sequential_forward (VanillaDQN.fc m) state = Ok q
     /\ shape q = [N; out])
  /\ (w <> d -> VanillaDQN.forward state m = Err RuntimeError).
Proof.
  intros Hinit Hd Hs.
  destruct (vanilla_init_inv _ _ _ _ _ Hinit) as (-> & d' & rest & -> & ->).
  cbn in Hd. injection Hd as ->.
  unfold VanillaDQN.forward, mbind, attr, lift, mret.
  cbn [VanillaDQN.use_conv VanillaDQN.fc].
  split.
  - intros ->.
    destruct (fresh_head_ok theta d out state N Hs) as (y & Hy & Hsy).
    exists y. rewrite Hy. auto.
  - intros Hw.
    now rewrite (fresh_head_mismatch theta d out state [N] w Hs Hw).
Qed.

Lemma vanilla_forward_accepts_rows_of_input_width_witness :
  (4 = 4 ->
   exists q,
     VanillaDQN.forward (zeros [1; 4])
       (VanillaDQN.mk [4] 2 false None (fresh_head (fun _ => 0%R) 4 2))
     = Ok (q, VanillaDQN.mk [4] 2 false None (fresh_head (fun _ => 0%R) 4 2))
     /\ sequential_forward
          (VanillaDQN.fc
             (VanillaDQN.mk [4] 2 false None (fresh_head (fun _ => 0%R) 4 2)))
          (zeros [1; 4]) = Ok q
     /\ shape q = [1; 2])
  /\ (4 <> 4 ->
      VanillaDQN.forward (zeros [1; 4])
        (VanillaDQN.mk [4] 2 false None (fresh_head (fun _ => 0%R) 4 2))
      = Err RuntimeError).
Proof.
  exact (vanilla_forward_accepts_rows_of_input_width
           (fun _ => 0%R) [4] 2 false
           (VanillaDQN.mk [4] 2 false None (fresh_head (fun _ => 0%R) 4 2))
           (zeros [1; 4]) 1 4 4 eq_refl eq_refl eq_refl).
Defined.

(** ** The feature-size probe *)

(** X2.  [feature_size], as defined by [VanillaDQN], [DuelingDQN] and
    [RecurrentDQN], never returns, whatever [self.features] holds: called
    with its one argument it raises NameError (its body refers to the name
    [autograd], which the module never binds), called with any other number
    of arguments it raises TypeError. *)
Theorem feature_size_never_returns
  (fo : option (list Layer)) (fl : list Layer) (args : list (list nat)) :
  VanillaDQN.feature_size fo args
  = match args with [_] => Err NameError | _ => Err TypeError end
  /\ DuelingDQN.feature_size fl args
     = match args with [_] => Err NameError | _ => Err TypeError end
  /\ RecurrentDQN.feature_size fo args
     = match args with [_] => Err NameError | _ => Err TypeError end.
Proof.
  unfold VanillaDQN.feature_size, DuelingDQN.feature_size,
    RecurrentDQN.feature_size, call1, feature_size_body.
  destruct args as [|a [|b rest]]; repeat split; reflexivity.
Qed.

(** ** The feature extractor of a constructed model *)

(** X3.  On every model that the constructor of [VanillaDQN],
    [DistributionalDQN] or [RecurrentDQN] returns, [self.features] is
    [None], so [conv_features] raises TypeError on every state. *)
Theorem conv_features_of_constructed_model_raises
  (theta : nat -> R)
  (v_in : list nat) (v_out : nat) (v_conv : bool) (vm : VanillaDQN.t)
  (x_in : list nat) (x_out x_atoms : nat) (x_conv : bool)
  (x_min x_max : float) (xm : DistributionalDQN.t)
  (r_in : list nat) (r_gru r_out : nat) (r_conv : bool)
  (rm : RecurrentDQN.t) (state : Tensor) :
  VanillaDQN.init theta v_in v_out v_conv = Ok vm ->
  DistributionalDQN.init theta x_in x_out x_conv x_atoms x_min x_max
  = Ok xm ->
  RecurrentDQN.init theta r_in r_gru r_out r_conv = Ok rm ->
  (VanillaDQN.features vm = None
   /\ VanillaDQN.conv_features state vm = Err TypeError)
  /\ (DistributionalDQN.features xm = None
      /\ DistributionalDQN.conv_features state xm = Err TypeError)
  /\ (RecurrentDQN.features rm = None
      /\ RecurrentDQN.conv_features state rm = Err TypeError).
Proof.
  intros Hv Hx Hr.
  destruct (vanilla_init_inv _ _ _ _ _ Hv) as (_ & d & rest & _ & ->).
  destruct (distributional_init_inv _ _ _ _ _ _ _ _ Hx)
    as (_ & d' & rest' & dz & k & _ & ->).
  destruct (recurrent_init_inv _ _ _ _ _ _ Hr) as (_ & d'' & rest'' & _ & ->).
  repeat split; reflexivity.
Qed.

Lemma conv_features_of_constructed_model_raises_witness :
  (VanillaDQN.features
     (VanillaDQN.mk [4] 2 false None (fresh_head (fun _ => (-1)%R) 4 2))
   = None
   /\ VanillaDQN.conv_features (zeros [1; 1; 36; 36])
        (VanillaDQN.mk [4] 2 false None (fresh_head (fun _ => (-1)%R) 4 2))
      = Err TypeError)
  /\ (DistributionalDQN.features distributional_example = None
      /\ DistributionalDQN.conv_features (zeros [1; 1; 36; 36])
           distributional_example = Err TypeError)
  /\ (RecurrentDQN.features (recurrent_fresh (fun _ => (-1)%R) 4 [] 8 2)
      = None
      /\ RecurrentDQN.conv_features (zeros [1; 1; 36; 36])
           (recurrent_fresh (fun _ => (-1)%R) 4 [] 8 2) = Err TypeError).
Proof.
  exact (conv_features_of_constructed_model_raises
           (fun _ => (-1)%R)
           [4] 2 false _
           [1] 1 2 false 0%float 1%float _
           [4] 8 2 false _ (zeros [1; 1; 36; 36])
           (vanilla_init_nonconv _ 4 [] 2)
           distributional_example_init
           (recurrent_init_nonconv _ 4 [] 8 2)).
Defined.

(** ** DuelingDQN without convolution *)

(** X4.  Without convolution a constructed [DuelingDQN] accepts exactly the
    batches whose rows have width [input_dim[0]]: on a batch (N, d) it
    returns Q-values of shape (N, output_dim) and stays as it was; on a
    batch (N, w) with any other width [w] its first layer raises
    RuntimeError. *)
Theorem dueling_forward_accepts_rows_of_input_width
  (theta : nat -> R) (input_dim : list nat) (out : nat)
  (m : DuelingDQN.t) (state : Tensor) (N d w : nat) :
  DuelingDQN.init theta input_dim out false = Ok m ->
  nth_error input_dim 0 = Some d ->
  shape state = [N; w] ->
  (w = d ->
   exists q, DuelingDQN.forward state m = Ok (q, m) /\ shape q = [N; out])
  /\ (w <> d -> DuelingDQN.forward state m = Err RuntimeError).
Proof.
  intros Hinit Hd Hs.
  destruct (dueling_init_inv _ _ _ _ _ Hinit) as (d' & rest & -> & ->).
  cbn in Hd. injection Hd as ->.
  split.
  - intros ->.
    destruct (dueling_nonconv_features_ok theta d rest out state N Hs)
      as (feats & Hf & Hsf).
    exact (dueling_fresh_forward theta d rest out false state feats N Hf Hsf).
  - intros Hw.
    unfold DuelingDQN.forward, mbind, attr, lift.
    cbn [DuelingDQN.use_conv DuelingDQN.features dueling_fresh].
    seq_step.
    now rewrite (linear_forward_mismatch (mkLinear theta 0 d 128)
                   state [N] w Hs Hw).
Qed.

Lemma dueling_forward_accepts_rows_of_input_width_witness :
  (4 = 4 ->
   exists q,
     DuelingDQN.forward (zeros [3; 4])
       (dueling_fresh (fun _ => 0%R) 4 [] 2 false)
     = Ok (q, dueling_fresh (fun _ => 0%R) 4 [] 2 false)
     /\ shape q = [3; 2])
  /\ (4 <> 4 ->
      DuelingDQN.forward (zeros [3; 4])
        (dueling_fresh (fun _ => 0%R) 4 [] 2 false)
      = Err RuntimeError).
Proof.
  exact (dueling_forward_accepts_rows_of_input_width
           (fun _ => 0%R) [4] 2 _ (zeros [3; 4]) 3 4 4
           (dueling_init_fresh _ 4 [] 2 false) eq_refl eq_refl).
Defined.

(** ** Constructor arguments at the edge *)

(** X5.  [DistributionalDQN(..., n_atoms=1, ...)] raises ZeroDivisionError,
    whatever the other arguments: the spacing of the support is the first
    thing the constructor computes, by a division by [n_atoms - 1]. *)
Theorem distributional_single_atom_divides_by_zero
  (theta : nat -> R) (input_dim : list nat) (out : nat) (uc : bool)
  (Vmin Vmax : float) :
  DistributionalDQN.init theta input_dim out uc 1 Vmin Vmax
  = Err ZeroDivisionError.
Proof. reflexivity. Qed.

(** X6.  An empty [input_dim] is rejected with IndexError by the
    constructors that read [input_dim[0]]: [VanillaDQN] and [DuelingDQN] in
    both modes, [RecurrentDQN] without convolution, and
    [DistributionalDQN] without convolution once the support has been
    built (here with the default atoms and value range). *)
Theorem constructors_reject_empty_input_dim
  (theta : nat -> R) (out gs : nat) (uc : bool) :
  VanillaDQN.init theta [] out uc = Err IndexError
  /\ DuelingDQN.init theta [] out uc = Err IndexError
  /\ RecurrentDQN.init theta [] gs out false = Err IndexError
  /\ DistributionalDQN.init theta [] out false 51 (-10)%float 10%float
     = Err IndexError.
Proof.
  refine (conj _ (conj _ (conj _ _))).
  - destruct uc; reflexivity.
  - destruct uc; reflexivity.
  - reflexivity.
  - unfold DistributionalDQN.init.
    destruct support_length_default as [Hdz Hlen].
    rewrite Hdz. cbn [bind]. unfold arange. rewrite Hlen. reflexivity.
Qed.

(** ** DistributionalDQN.forward in convolutional mode *)

(** X7.  With [use_conv] set, [DistributionalDQN.forward] never reaches the
    head: on a state with at least one dimension it raises NameError (the
    bare name [conv_features] is not bound), on a 0-dimensional state
    IndexError (reading [state.size()[0]]). *)
Theorem distributional_conv_forward_raises
  (m : DistributionalDQN.t) (state : Tensor) :
  DistributionalDQN.use_conv m = true ->
  DistributionalDQN.forward state m
  = match shape state with
    | [] => Err IndexError
    | _ :: _ => Err NameError
    end.
Proof.
  intros Huc. unfold DistributionalDQN.forward.
  unfold mbind at 1. unfold lift at 1, size.
  destruct (shape state) as [|b s]; cbn [nth_error]; [reflexivity|].
  unfold mbind, attr, lift. rewrite Huc. reflexivity.
Qed.

Lemma distributional_conv_forward_raises_witness :
  DistributionalDQN.forward (zeros [1; 1])
    (DistributionalDQN.mk [1] 1 2 true 0%float 1%float 1%float
       (support_of 0%float 1%float 2) None
       (fresh_head (fun _ => (-1)%R) 1 (1 * 2)) 1)
  = Err NameError.
Proof.
  exact (distributional_conv_forward_raises
           (DistributionalDQN.mk [1] 1 2 true 0%float 1%float 1%float
              (support_of 0%float 1%float 2) None
              (fresh_head (fun _ => (-1)%R) 1 (1 * 2)) 1)
           (zeros [1; 1]) eq_refl).
Defined.

(** ** RecurrentDQN: the hidden state across calls *)

Lemma gru_forward_batch_mismatch (c : GRUCell) (x h : Tensor) (N M : nat) :
  shape x = [N; input_size c] -> shape h = [M; hidden_size c] -> N <> M ->
  gru_forward c x h = Err RuntimeError.
Proof.
  intros Hx Hh HNM. unfold gru_forward. rewrite Hx, Hh, !Nat.eqb_refl.
  destruct (Nat.eqb_spec N M) as [?|_]; [contradiction|reflexivity].
Qed.

(** What [RecurrentDQN.forward] does on a constructed model up to the
    recurrent cell, when the hidden state reshapes to [M] rows. *)
Lemma recurrent_forward_to_cell (theta : nat -> R) (d : nat)
  (rest : list nat) (gs out : nat) (state hidden : Tensor) (N M : nat) :
  shape state = [N; d] -> numel (shape hidden) = M * gs -> 0 < gs ->
  let m := recurrent_fresh theta d rest gs out in
  RecurrentDQN.forward state hidden m
  = match gru_forward (RecurrentDQN.gru m)
            (relu (linear_out (RecurrentDQN.linear1 m) state [N]))
            (mkTensor [M; gs] (data hidden)) with
    | Ok h => match linear_forward (RecurrentDQN.linear2 m) h with
              | Ok q => Ok ((q, h), m)
              | Err e => Err e
              end
    | Err e => Err e
    end.
Proof.
  intros Hst Hh Hgs m.
  unfold RecurrentDQN.forward, mbind, attr, lift, mret.
  cbn [RecurrentDQN.use_conv m recurrent_fresh]. fold m.
  rewrite (linear_forward_ok (RecurrentDQN.linear1 m) state [N])
    by exact Hst.
  cbn [RecurrentDQN.gru_size m recurrent_fresh].
  rewrite (view_hidden hidden M gs Hh Hgs). fold m.
  destruct (gru_forward _ _ _) as [h|e]; [|reflexivity].
  destruct (linear_forward _ h); reflexivity.
Qed.

(** X8.  [init_hidden] returns a zero tensor of shape (1, gru_size) and
    leaves the model as it was.  Passed to [forward] it serves a batch of
    exactly one state: with a batch (1, d) [forward] returns Q-values
    (1, output_dim) and the next hidden state (1, gru_size); with a batch
    of any other size the recurrent cell raises RuntimeError. *)
Theorem recurrent_init_hidden_serves_one_state
  (theta : nat -> R) (input_dim : list nat) (gs out : nat) (uc : bool)
  (m : RecurrentDQN.t) (state : Tensor) (N d : nat) :
  RecurrentDQN.init theta input_dim gs out uc = Ok m ->
  nth_error input_dim 0 = Some d ->
  shape state = [N; d] ->
  0 < gs ->
  RecurrentDQN.init_hidden m = Ok (zeros [1; gs], m)
  /\ (N = 1 ->
      exists q h,
        RecurrentDQN.forward state (zeros [1; gs]) m = Ok ((q, h), m)
        /\ shape q = [1; out] /\ shape h = [1; gs])
  /\ (N <> 1 ->
      RecurrentDQN.forward state (zeros [1; gs]) m = Err RuntimeError).
Proof.
  intros Hinit Hd Hst Hgs.
  destruct (recurrent_init_inv _ _ _ _ _ _ Hinit)
    as (-> & d' & rest & -> & ->).
  cbn in Hd. injection Hd as ->.
  assert (Hz : numel (shape (zeros [1; gs])) = 1 * gs)
    by (cbn [zeros shape numel fold_right]; lia).
  refine (conj eq_refl (conj _ _)).
  - intros ->.
    destruct (recurrent_forward_fresh theta d rest gs out state
                (zeros [1; gs]) 1 Hst Hz Hgs)
      as (q & h & Hf & _ & _ & Hq & Hh).
    now exists q, h.
  - intros HN.
    rewrite (recurrent_forward_to_cell theta d rest gs out state
               (zeros [1; gs]) N 1 Hst Hz Hgs).
    rewrite gru_forward_batch_mismatch with (N := N) (M := 1);
      [reflexivity|reflexivity|reflexivity|exact HN].
Qed.

Lemma recurrent_init_hidden_serves_one_state_witness :
  RecurrentDQN.init_hidden (recurrent_fresh (fun _ => 0%R) 4 [] 8 2)
  = Ok (zeros [1; 8], recurrent_fresh (fun _ => 0%R) 4 [] 8 2)
  /\ (1 = 1 ->
      exists q h,
        RecurrentDQN.forward (zeros [1; 4]) (zeros [1; 8])
          (recurrent_fresh (fun _ => 0%R) 4 [] 8 2)
        = Ok ((q, h), recurrent_fresh (fun _ => 0%R) 4 [] 8 2)
        /\ shape q = [1; 2] /\ shape h = [1; 8])
  /\ (1 <> 1 ->
      RecurrentDQN.forward (zeros [1; 4]) (zeros [1; 8])
        (recurrent_fresh (fun _ => 0%R) 4 [] 8 2)
      = Err RuntimeError).
Proof.
  exact (recurrent_init_hidden_serves_one_state
           (fun _ => 0%R) [4] 8 2 false _ (zeros [1; 4]) 1 4
           (recurrent_init_nonconv _ 4 [] 8 2) eq_refl eq_refl
           (Nat.lt_0_succ 7)).
Defined.

(** X9.  The hidden state [forward] returns is accepted by the next call:
    on a constructed model, two calls in a row on batches of the same size,
    the second given the hidden state the first returned, both return, and
    the model is the same throughout. *)
Theorem recurrent_hidden_state_feeds_next_call
  (theta : nat -> R) (input_dim : list nat) (gs out : nat) (uc : bool)
  (m : RecurrentDQN.t) (s1 s2 hidden : Tensor) (N d : nat) :
  RecurrentDQN.init theta input_dim gs out uc = Ok m ->
  nth_error input_dim 0 = Some d ->
  shape s1 = [N; d] -> shape s2 = [N; d] ->
  numel (shape hidden) = N * gs ->
  0 < gs ->
  exists q1 h1 q2 h2,
    RecurrentDQN.forward s1 hidden m = Ok ((q1, h1), m)
    /\ RecurrentDQN.forward s2 h1 m = Ok ((q2, h2), m)
    /\ shape q1 = [N; out] /\ shape h1 = [N; gs]
    /\ shape q2 = [N; out] /\ shape h2 = [N; gs].
Proof.
  intros Hinit Hd H1 H2 Hh Hgs.
  destruct (recurrent_init_inv _ _ _ _ _ _ Hinit)
    as (-> & d' & rest & -> & ->).
  cbn in Hd. injection Hd as ->.
  destruct (recurrent_forward_fresh theta d rest gs out s1 hidden N
              H1 Hh Hgs) as (q1 & h1 & Hf1 & _ & _ & Hq1 & Hh1).
  assert (Hn : numel (shape h1) = N * gs)
    by (rewrite Hh1; cbn [numel fold_right]; lia).
  destruct (recurrent_forward_fresh theta d rest gs out s2 h1 N
              H2 Hn Hgs) as (q2 & h2 & Hf2 & _ & _ & Hq2 & Hh2).
  exists q1, h1, q2, h2. auto 10.
Qed.

Lemma recurrent_hidden_state_feeds_next_call_witness :
  exists q1 h1 q2 h2,
    RecurrentDQN.forward (zeros [2; 4]) (zeros [2; 8])
      (recurrent_fresh (fun _ => 0%R) 4 [] 8 2)
    = Ok ((q1, h1), recurrent_fresh (fun _ => 0%R) 4 [] 8 2)
    /\ RecurrentDQN.forward (zeros [2; 4]) h1
         (recurrent_fresh (fun _ => 0%R) 4 [] 8 2)
       = Ok ((q2, h2), recurrent_fresh (fun _ => 0%R) 4 [] 8 2)
    /\ shape q1 = [2; 2] /\ shape h1 = [2; 8]
    /\ shape q2 = [2; 2] /\ shape h2 = [2; 8].
Proof.
  exact (recurrent_hidden_state_feeds_next_call
           (fun _ => 0%R) [4] 8 2 false _
           (zeros [2; 4]) (zeros [2; 4]) (zeros [2; 8]) 2 4
           (recurrent_init_nonconv _ 4 [] 8 2) eq_refl eq_refl eq_refl
           eq_refl (Nat.lt_0_succ 7)).
Defined.

(** X10.  A hidden state that does not hold exactly one row of [gru_size]
    entries per state of the batch is rejected: on a constructed model and
    a batch (N, d), [forward] raises RuntimeError whenever the number of
    entries of [hidden_state] differs from N * gru_size. *)
Theorem recurrent_forward_rejects_other_hidden_sizes
  (theta : nat -> R) (input_dim : list nat) (gs out : nat) (uc : bool)
  (m : RecurrentDQN.t) (state hidden : Tensor) (N d : nat) :
  RecurrentDQN.init theta input_dim gs out uc = Ok m ->
  nth_error input_dim 0 = Some d ->
  shape state = [N; d] ->
  0 < gs ->
  numel (shape hidden) <> N * gs ->
  RecurrentDQN.forward state hidden m = Err RuntimeError.
Proof.
  intros Hinit Hd Hst Hgs Hne.
  destruct (recurrent_init_inv _ _ _ _ _ _ Hinit)
    as (-> & d' & rest & -> & ->).
  cbn in Hd. injection Hd as ->.
  destruct (Nat.eqb_spec (numel (shape hidden) mod gs) 0) as [Hmod|Hmod].
  - apply Nat.Div0.div_exact in Hmod.
    assert (HM : numel (shape hidden) = (numel (shape hidden) / gs) * gs)
      by lia.
    rewrite (recurrent_forward_to_cell theta d rest gs out state hidden N
               _ Hst HM Hgs).
    rewrite gru_forward_batch_mismatch
      with (N := N) (M := numel (shape hidden) / gs);
      [reflexivity|reflexivity|reflexivity|].
    intros ->. apply Hne. exact HM.
  - unfold RecurrentDQN.forward, mbind, attr, lift, mret.
    cbn [RecurrentDQN.use_conv RecurrentDQN.linear1 RecurrentDQN.gru_size
         recurrent_fresh].
    rewrite (linear_forward_ok _ state [N]) by exact Hst.
    unfold view.
    cbn [holes filter length known fold_right RecurrentDQN.gru_size
         recurrent_fresh].
    rewrite Nat.mul_1_r.
    destruct (Nat.eqb_spec gs 0) as [?|_]; [lia|].
    destruct (Nat.eqb_spec (numel (shape hidden) mod gs) 0) as [?|_];
      [contradiction|reflexivity].
Qed.

Lemma recurrent_forward_rejects_other_hidden_sizes_witness :
  RecurrentDQN.forward (zeros [2; 4]) (zeros [1; 8])
    (recurrent_fresh (fun _ => 0%R) 4 [] 8 2)
  = Err RuntimeError.
Proof.
  exact (recurrent_forward_rejects_other_hidden_sizes
           (fun _ => 0%R) [4] 8 2 false _ (zeros [2; 4]) (zeros [1; 8]) 2 4
           (recurrent_init_nonconv _ 4 [] 8 2) eq_refl eq_refl
           (Nat.lt_0_succ 7) ltac:(cbn; lia)).
Defined.






(** ** DuelingDQN: what the centring does to a batch *)

Lemma rsum_add (n m : nat) (f : nat -> R) :
  rsum (n + m) f = (rsum n f + rsum m (fun i => f (n + i)%nat))%R.
Proof.
  induction m as [|m IH].
  - rewrite Nat.add_0_r. cbn [rsum]. lra.
  - rewrite Nat.add_succ_r. cbn [rsum]. rewrite IH. lra.
Qed.

(** A sum over a matrix in row-major order, row by row. *)
Lemma rsum_rows (N A : nat) (f : nat -> R) :
  rsum (N * A) f = rsum N (fun n => rsum A (fun j => f (n * A + j))).
Proof.
  induction N as [|N IH]; [reflexivity|].
  cbn [rsum]. rewrite <- IH.
  replace (S N * A) with (N * A + A) by lia.
  apply rsum_add.
Qed.

Lemma rsum_plus (n : nat) (f g : nat -> R) :
  rsum n (fun i => (f i + g i)%R) = (rsum n f + rsum n g)%R.
Proof.
  induction n as [|n IH]; cbn [rsum]; [lra|]. rewrite IH. lra.
Qed.

Lemma rsum_scal (n : nat) (c : R) (f : nat -> R) :
  rsum n (fun i => (c * f i)%R) = (c * rsum n f)%R.
Proof.
  induction n as [|n IH]; cbn [rsum]; [lra|]. rewrite IH. lra.
Qed.

(** The centred advantages of a whole batch sum to zero, so the entries of
    [values + (advantages - advantages.mean())] sum to [A] times the sum of
    the values. *)
Lemma combine_total (values advantages q : Tensor) (N A : nat) :
  0 < N * A ->
  (forall n j, n < N -> j < A ->
     rd q (n * A + j)
     = (rd values n
        + (rd advantages (n * A + j)
           - rsum (N * A) (rd advantages) / INR (N * A)))%R) ->
  rsum (N * A) (rd q) = (INR A * rsum N (rd values))%R.
Proof.
  intros Hpos He.
  set (mu := (rsum (N * A) (rd advantages) / INR (N * A))%R) in *.
  rewrite rsum_rows.
  rewrite (rsum_ext N _
             (fun n => (INR A * rd values n
                        + (rsum A (fun j => rd advantages (n * A + j))
                           + INR A * - mu))%R)).
  2:{ intros n Hn.
      rewrite (rsum_ext A _
                 (fun j => (rd values n
                            + (rd advantages (n * A + j) + - mu))%R))
        by (intros j Hj; rewrite (He n j Hn Hj); lra).
      rewrite !rsum_plus, !rsum_const. reflexivity. }
  rewrite !rsum_plus, rsum_scal, rsum_const, <- rsum_rows.
  assert (Hmu : (INR (N * A) * mu = rsum (N * A) (rd advantages))%R).
  { unfold mu. field. apply not_0_INR. lia. }
  rewrite mult_INR in Hmu. nra.
Qed.

(** X12.  Centring by the batch-wide mean makes the Q-values of a batch
    average to the average state value: whenever the extractor and the two
    streams return, on a non-empty batch with at least one action, the
    mean of all entries of the result of [DuelingDQN.forward] equals the
    mean of the value stream's outputs. *)
Theorem dueling_mean_q_is_mean_value
  (m : DuelingDQN.t) (state feats values advantages : Tensor) (N A : nat) :
  dueling_features m state = Ok feats ->
  sequential_forward (DuelingDQN.value_stream m) feats = Ok values ->
  sequential_forward (DuelingDQN.advantage_stream m) feats = Ok advantages ->
  shape values = [N; 1] ->
  shape advantages = [N; A] ->
  0 < N -> 0 < A ->
  exists q,
    DuelingDQN.forward state m = Ok (q, m)
    /\ mean q = mean values.
Proof.
  intros Hf Hv Ha Hsv Hsa HN HA.
  destruct (combine_entries values advantages N A Hsv Hsa)
    as (q & Hq & Hsq & He).
  exists q. split.
  - rewrite (dueling_forward_steps m state feats values advantages Hf Hv Ha).
    now rewrite Hq.
  - unfold mean. rewrite Hsq, Hsv. cbn [numel fold_right].
    rewrite !Nat.mul_1_r.
    rewrite (combine_total values advantages q N A) by (try exact He; nia).
    do 2 f_equal. rewrite mult_INR. field.
    split; apply not_0_INR; lia.
Qed.

Lemma dueling_mean_q_is_mean_value_witness :
  exists q,
    DuelingDQN.forward (rows 2 1 two_obs) dueling_example
    = Ok (q, dueling_example)
    /\ mean q = mean (rows 2 1 (fun _ => 0%R)).
Proof.
  exact (dueling_mean_q_is_mean_value
           dueling_example (rows 2 1 two_obs) (rows 2 128 two_obs)
           (rows 2 1 (fun _ => 0%R)) (rows 2 1 two_obs) 2 1
           (example_features 2 two_obs two_obs_nonneg)
           (example_values 2 two_obs)
           (example_advantages 2 two_obs two_obs_nonneg)
           eq_refl eq_refl (Nat.lt_0_succ 1) (Nat.lt_0_succ 0)).
Defined.

(** X13.  The Q-values do not see a common offset of the advantages: if
    every entry of [advantages'] is the entry of [advantages] plus the same
    constant [c], then [values + (advantages' - advantages'.mean())] and
    [values + (advantages - advantages.mean())] have the same entries. *)
Theorem dueling_q_ignores_advantage_offset
  (values advantages advantages' : Tensor) (N A : nat) (c : R) :
  shape values = [N; 1] ->
  shape advantages = [N; A] ->
  shape advantages' = [N; A] ->
  (forall i, i < N * A -> rd advantages' i = (rd advantages i + c)%R) ->
  exists q q',
    DuelingDQN.combine values advantages = Ok q
    /\ DuelingDQN.combine values advantages' = Ok q'
    /\ shape q = [N; A] /\ shape q' = [N; A]
    /\ forall n j, n < N -> j < A -> rd q' (n * A + j) = rd q (n * A + j).
Proof.
  intros Hsv Hsa Hsa' Hoff.
  destruct (combine_entries values advantages N A Hsv Hsa)
    as (q & Hq & Hsq & He).
  destruct (combine_entries values advantages' N A Hsv Hsa')
    as (q' & Hq' & Hsq' & He').
  exists q, q'. repeat (split; [assumption|]).
  intros n j Hn Hj.
  assert (Hi : n * A + j < N * A) by nia.
  rewrite (He n j Hn Hj), (He' n j Hn Hj), (Hoff _ Hi).
  rewrite (rsum_ext (N * A) (rd advantages')
             (fun i => (rd advantages i + c)%R)) by exact Hoff.
  rewrite rsum_plus, rsum_const.
  assert (Hnz : INR (N * A) <> 0%R) by (apply not_0_INR; lia).
  field. exact Hnz.
Qed.

Lemma dueling_q_ignores_advantage_offset_witness :
  exists q q',
    DuelingDQN.combine (rows 2 1 (fun _ => 0%R)) (rows 2 1 two_obs) = Ok q
    /\ DuelingDQN.combine (rows 2 1 (fun _ => 0%R))
         (rows 2 1 (fun n => (two_obs n + 5)%R)) = Ok q'
    /\ shape q = [2; 1] /\ shape q' = [2; 1]
    /\ forall n j, n < 2 -> j < 1 -> rd q' (n * 1 + j) = rd q (n * 1 + j).
Proof.
  refine (dueling_q_ignores_advantage_offset
            (rows 2 1 (fun _ => 0%R)) (rows 2 1 two_obs)
            (rows 2 1 (fun n => (two_obs n + 5)%R)) 2 1 5%R
            eq_refl eq_refl eq_refl _).
  intros i Hi. rewrite !rd_rows_1 by lia. reflexivity.
Defined.

(** ** DistributionalDQN.forward: the second component *)

Lemma rsum_swap (n m : nat) (F : nat -> nat -> R) :
  rsum n (fun a => rsum m (fun k => F a k))
  = rsum m (fun k => rsum n (fun a => F a k)).
Proof.
  induction n as [|n IH]; cbn [rsum].
  - now rewrite rsum_const, Rmult_0_r.
  - rewrite IH, <- rsum_plus. reflexivity.
Qed.

Lemma Ok_inj {A : Type} (a b : A) : Ok a = Ok b -> a = b.
Proof. congruence. Qed.

(** Entry (b, a) of [torch.sum(probs * support, dim=2)], for [probs] of
    shape (B, A, K) and a support of [K] entries. *)
Lemma weighted_sum_entry (probs sup weighted q : Tensor) (B A K b a : nat) :
  shape probs = [B; A; K] -> shape sup = [K] ->
  tmul probs sup = Ok weighted ->
  sum_dim weighted 2 = Ok q ->
  b < B -> a < A ->
  rd q (b * A + a)
  = rsum K (fun k => (rd probs ((b * A + a) * K + k) * rd sup k)%R).
Proof.
  intros Hsp Hss Hw Hq Hb Ha.
  assert (Hweighted :
            shape weighted = [B; A; K]
            /\ forall r k, r < B * A -> k < K ->
                 rd weighted (r * K + k)
                 = (rd probs (r * K + k) * rd sup k)%R).
  { unfold tmul in Hw.
    rewrite (pointwise_shape _ _ _ [K; A; B]) in Hw
      by (rewrite Hsp, Hss; apply bshape_last).
    apply Ok_inj in Hw. subst weighted. split; [reflexivity|].
    intros r k Hr Hk.
    assert (Hi : r * K + k < numel [K; A; B]).
    { cbn [numel fold_right].
      pose proof (Nat.mul_le_mono_r (r + 1) (B * A) K ltac:(lia)). lia. }
    rewrite rd_mk by exact Hi.
    rewrite Hsp, Hss. simpl rev.
    rewrite (bidx_same [K; A; B]) by exact Hi.
    cbn [bidx]. rewrite Nat.mul_0_r, Nat.add_0_r.
    destruct (Nat.eqb_spec K 1) as [->|_].
    - replace k with 0 by lia. reflexivity.
    - rewrite mod_row by exact Hk. reflexivity. }
  destruct Hweighted as [Hsw Hrw]. clear Hw.
  unfold sum_dim in Hq. rewrite Hsw in Hq.
  cbn [nth_error firstn skipn numel fold_right app] in Hq.
  apply Ok_inj in Hq. subst q.
  assert (Hba : b * A + a < B * A)
    by (pose proof (Nat.mul_le_mono_r (b + 1) B A ltac:(lia)); lia).
  rewrite rd_mk by lia.
  apply rsum_ext. intros k Hk.
  rewrite Nat.div_1_r, Nat.mod_1_r, Nat.mul_1_r, Nat.add_0_r.
  apply Hrw; assumption.
Qed.

(** X14.  The softmax of [DistributionalDQN] normalises along dimension 1,
    the actions.  So on a constructed model without convolution (support of
    [n_atoms] entries, non-empty batch, at least one action) the second
    component of [forward] has, for every state of the batch, entries that
    sum over the actions to the sum of the support entries: a total fixed
    at construction, the same for every state and every parameter value. *)
Theorem distributional_q_values_sum_to_support_total
  (theta : nat -> R) (input_dim : list nat) (A n : nat) (Vmin Vmax : float)
  (m : DistributionalDQN.t) (state : Tensor) (B d : nat) :
  DistributionalDQN.init theta input_dim A false n Vmin Vmax = Ok m ->
  shape (DistributionalDQN.support m) = [n] ->
  nth_error input_dim 0 = Some d ->
  shape state = [B; d] ->
  0 < B -> 0 < n -> 0 < A ->
  exists dist q,
    DistributionalDQN.forward state m = Ok ((dist, q), m)
    /\ shape q = [B; A]
    /\ forall b, b < B ->
         rsum A (fun a => rd q (b * A + a))
         = rsum n (rd (DistributionalDQN.support m)).
Proof.
  intros Hinit Hsup Hd Hst HB Hn HA.
  destruct (distributional_init_nonconv_inv _ _ _ _ _ _ _ Hinit)
    as (d' & rest & dz & k & -> & ->).
  cbn in Hd. injection Hd as ->.
  cbn [DistributionalDQN.support] in *.
  destruct (fresh_head_ok theta d (A * n) state B Hst) as (y & Hy & Hsy).
  destruct (distributional_forward_run
              (DistributionalDQN.mk (d :: rest) A n false Vmin Vmax dz
                 (support_of Vmin dz k) None (fresh_head theta d (A * n)) 1)
              state y B A n [d] eq_refl eq_refl eq_refl Hsup Hst Hy Hsy HB Hn)
    as (probs & weighted & q & Hf & Hp & Hw & Hq & Hsq).
  cbn [DistributionalDQN.support] in Hw.
  exists (mkTensor [B; A; n] (data y)), q.
  split; [exact Hf|split; [exact Hsq|]].
  intros b Hb.
  destruct (softmax_forward_ok 1 (mkTensor [B; A; n] (data y)) A eq_refl)
    as (probs' & Hp' & Hsp).
  rewrite Hp in Hp'. injection Hp' as <-. cbn [shape] in Hsp.
  rewrite (rsum_ext A _
             (fun a => rsum n (fun j =>
                (rd probs ((b * A + a) * n + j)
                 * rd (support_of Vmin dz k) j)%R)))
    by (intros a Ha;
        exact (weighted_sum_entry probs _ weighted q B A n b a
                 Hsp Hsup Hw Hq Hb Ha)).
  rewrite (rsum_swap A n
             (fun a j => (rd probs ((b * A + a) * n + j)
                          * rd (support_of Vmin dz k) j)%R)).
  apply rsum_ext. intros j Hj.
  rewrite (rsum_ext A _
             (fun a => (rd (support_of Vmin dz k) j
                        * rd probs ((b * A + a) * n + j))%R))
    by (intros; apply Rmult_comm).
  rewrite rsum_scal.
  rewrite (softmax_dim1_sums_over_actions
             (mkTensor [B; A; n] (data y)) probs B A n b j
             eq_refl Hp Hb HA Hj).
  apply Rmult_1_r.
Qed.

Lemma distributional_q_values_sum_to_support_total_witness :
  exists dist q,
    DistributionalDQN.forward (zeros [1; 1]) distributional_example
    = Ok ((dist, q), distributional_example)
    /\ shape q = [1; 1]
    /\ forall b, b < 1 ->
         rsum 1 (fun a => rd q (b * 1 + a))
         = rsum 2 (rd (DistributionalDQN.support distributional_example)).
Proof.
  exact (distributional_q_values_sum_to_support_total
           (fun _ => (-1)%R) [1] 1 2 0%float 1%float
           distributional_example (zeros [1; 1]) 1 1
           distributional_example_init eq_refl eq_refl eq_refl
           (Nat.lt_0_succ 0) (Nat.lt_0_succ 1) (Nat.lt_0_succ 0)).
Defined.

(** ** The convolutional extractor: the smallest image *)

Lemma conv_fits_36 (n : nat) : conv_fits n = true <-> 36 <= n.
Proof.
  unfold conv_fits, conv_out.
  rewrite !andb_true_iff, !Nat.leb_le.
  pose proof (Nat.div_mod_eq (n - 8) 4).
  pose proof (Nat.mod_upper_bound (n - 8) 4 ltac:(lia)).
  pose proof (Nat.div_mod_eq ((n - 8) / 4 + 1 - 4) 2).
  pose proof (Nat.mod_upper_bound ((n - 8) / 4 + 1 - 4) 2 ltac:(lia)).
  lia.
Qed.

Lemma conv2d_forward_cases (c : Conv2d) (x : Tensor) (N H W : nat) :
  shape x = [N; in_channels c; H; W] -> 0 < stride c ->
  conv2d_forward c x
  = if (kernel_size c <=? H) && (kernel_size c <=? W)
    then Ok (conv2d_out c x N H W)
    else Err RuntimeError.
Proof.
  intros Hs Hst. unfold conv2d_forward, conv2d_out. rewrite Hs.
  rewrite Nat.eqb_refl. apply Nat.ltb_lt in Hst. rewrite Hst.
  cbn [andb].
  destruct (kernel_size c <=? H), (kernel_size c <=? W); reflexivity.
Qed.

(** The three convolutions on a batch of images too small for one of
    them. *)
Lemma conv_stack_small (theta : nat -> R) (off c0 : nat) (x : Tensor)
  (N H W : nat) :
  shape x = [N; c0; H; W] ->
  conv_fits H && conv_fits W = false ->
  sequential_forward (conv_stack theta off c0) x = Err RuntimeError.
Proof.
  intros Hs Hf. unfold conv_fits in Hf. unfold conv_stack. seq_step.
  rewrite (conv2d_forward_cases _ x N H W) by (cbn; auto with arith).
  cbn [kernel_size mkConv2d].
  destruct (8 <=? H), (8 <=? W); cbn [andb bind]; try reflexivity.
  seq_step.
  match goal with |- context [conv2d_forward ?c ?t] =>
    rewrite (conv2d_forward_cases c t N (conv_out H 8 4) (conv_out W 8 4))
      by (cbn; auto with arith)
  end.
  cbn [kernel_size mkConv2d].
  destruct (4 <=? conv_out H 8 4), (4 <=? conv_out W 8 4);
    cbn [andb bind]; try reflexivity.
  seq_step.
  match goal with |- context [conv2d_forward ?c ?t] =>
    rewrite (conv2d_forward_cases c t N (conv_out (conv_out H 8 4) 4 2)
               (conv_out (conv_out W 8 4) 4 2))
      by (cbn; auto with arith)
  end.
  cbn [kernel_size mkConv2d].
  destruct (3 <=? conv_out (conv_out H 8 4) 4 2),
    (3 <=? conv_out (conv_out W 8 4) 4 2);
    cbn [andb bind]; try reflexivity.
  discriminate Hf.
Qed.

(** X15.  The convolutional extractor needs images of at least 36 x 36
    pixels.  On a [DuelingDQN] constructed with [use_conv=True] and a
    non-empty batch (N, C, H, W) with C = [input_dim[0]]: if H and W are
    both at least 36, [conv_features] returns a matrix with one row of
    64 * h * w features per image (h, w the height and width the three
    convolutions leave) and the model is unchanged; if H or W is smaller,
    one of the convolutions raises RuntimeError, in [conv_features] and so
    in [forward]. *)
Theorem dueling_extractor_needs_36_pixels
  (theta : nat -> R) (input_dim : list nat) (out : nat) (m : DuelingDQN.t)
  (state : Tensor) (N d H W : nat) :
  DuelingDQN.init theta input_dim out true = Ok m ->
  nth_error input_dim 0 = Some d ->
  shape state = [N; d; H; W] ->
  0 < N ->
  (36 <= H /\ 36 <= W ->
   exists feats,
     DuelingDQN.conv_features state m = Ok (feats, m)
     /\ shape feats = [N; 64 * (feature_hw H * feature_hw W)])
  /\ (H < 36 \/ W < 36 ->
      DuelingDQN.conv_features state m = Err RuntimeError
      /\ DuelingDQN.forward state m = Err RuntimeError).
Proof.
  intros Hinit Hd Hs HN.
  destruct (dueling_init_inv _ _ _ _ _ Hinit) as (d' & rest & -> & ->).
  cbn in Hd. injection Hd as ->.
  split.
  - intros [HH HW].
    apply conv_fits_36 in HH, HW.
    destruct (dueling_conv_features_ok theta d rest out state N H W
                Hs HN HH HW) as (feats & Hf & Hsf).
    exists feats. split.
    + apply returns_readonly; [apply dueling_conv_features_readonly|].
      exact Hf.
    + rewrite Hsf. unfold conv_features_width.
      now rewrite Nat.mul_1_r.
  - intros Hsmall.
    assert (Hf : conv_fits H && conv_fits W = false).
    { apply andb_false_iff.
      destruct Hsmall as [Hlt|Hlt]; [left|right];
        apply not_true_is_false; rewrite conv_fits_36; lia. }
    assert (Hc : DuelingDQN.conv_features state
                   (dueling_fresh theta d rest out true)
                 = Err RuntimeError).
    { unfold DuelingDQN.conv_features, mbind, attr, lift.
      cbn [DuelingDQN.features dueling_fresh].
      now rewrite (conv_stack_small theta 0 d state N H W Hs Hf). }
    split; [exact Hc|].
    unfold DuelingDQN.forward.
    unfold mbind at 1. unfold attr at 1.
    cbn [DuelingDQN.use_conv dueling_fresh].
    unfold mbind at 1. now rewrite Hc.
Qed.

Lemma dueling_extractor_needs_36_pixels_witness :
  (36 <= 36 /\ 36 <= 44 ->
   exists feats,
     DuelingDQN.conv_features (zeros [1; 1; 36; 44])
       (dueling_fresh (fun _ => 0%R) 1 [36; 44] 2 true)
     = Ok (feats, dueling_fresh (fun _ => 0%R) 1 [36; 44] 2 true)
     /\ shape feats = [1; 64 * (feature_hw 36 * feature_hw 44)])
  /\ (36 < 36 \/ 44 < 36 ->
      DuelingDQN.conv_features (zeros [1; 1; 36; 44])
        (dueling_fresh (fun _ => 0%R) 1 [36; 44] 2 true)
      = Err RuntimeError
      /\ DuelingDQN.forward (zeros [1; 1; 36; 44])
           (dueling_fresh (fun _ => 0%R) 1 [36; 44] 2 true)
         = Err RuntimeError).
Proof.
  exact (dueling_extractor_needs_36_pixels
           (fun _ => 0%R) [1; 36; 44] 2 _ (zeros [1; 1; 36; 44]) 1 1 36 44
           (dueling_init_fresh _ 1 [36; 44] 2 true) eq_refl eq_refl
           (Nat.lt_0_succ 0)).
Defined.

(** ** VanillaDQN: the states of a batch are treated one by one *)

Lemma tabulate_app {A : Type} (n m : nat) (f : nat -> A) :
  tabulate (n + m) f = tabulate n f ++ tabulate m (fun i => f (n + i)).
Proof.
  unfold tabulate. rewrite seq_app, map_app. f_equal.
  cbn [Nat.add].
  assert (Hs : forall s, map f (seq (n + s) m)
                         = map (fun i => f (n + i)) (seq s m)).
  { induction m as [|m IH]; intros s; [reflexivity|].
    cbn [seq map]. f_equal. rewrite <- Nat.add_succ_r. apply IH. }
  specialize (Hs 0). now rewrite Nat.add_0_r in Hs.
Qed.

Lemma rd_cat0_l (a b : Tensor) (n n' : nat) (s s' : list nat) (i : nat) :
  shape a = n :: s -> shape b = n' :: s' -> wf a ->
  i < numel (n :: s) -> rd (cat0 a b) i = rd a i.
Proof.
  intros Ha Hb Hwf Hi. unfold cat0, rd. rewrite Ha, Hb. cbn [data].
  apply app_nth1. unfold wf in Hwf. rewrite Hwf, Ha. exact Hi.
Qed.

Lemma rd_cat0_r (a b : Tensor) (n n' : nat) (s s' : list nat) (i : nat) :
  shape a = n :: s -> shape b = n' :: s' -> wf a ->
  rd (cat0 a b) (numel (n :: s) + i) = rd b i.
Proof.
  intros Ha Hb Hwf. unfold cat0, rd. rewrite Ha, Hb. cbn [data].
  unfold wf in Hwf. rewrite <- Ha, <- Hwf. apply app_nth2_plus.
Qed.

Lemma wf_linear_out (l : Linear) (x : Tensor) (N : nat) :
  wf (linear_out l x [N]).
Proof.
  unfold wf, linear_out. cbn [data shape app numel fold_right].
  rewrite length_tabulate. lia.
Qed.

Lemma wf_relu (x : Tensor) : wf x -> wf (relu x).
Proof.
  unfold wf, relu. cbn [data shape]. now rewrite length_map.
Qed.

Lemma relu_cat0 (a b : Tensor) : relu (cat0 a b) = cat0 (relu a) (relu b).
Proof.
  destruct a as [sa da], b as [sb db]. unfold cat0, relu. cbn [shape data].
  destruct sa as [|n s]; [reflexivity|].
  destruct sb as [|n' s']; [reflexivity|].
  cbn [shape data]. now rewrite map_app.
Qed.

(** A linear layer on two batches stacked: the outputs stacked. *)
Lemma linear_out_cat0 (l : Linear) (a b : Tensor) (N1 N2 : nat) :
  shape a = [N1; in_features l] -> shape b = [N2; in_features l] ->
  wf a ->
  linear_out l (cat0 a b) [N1 + N2]
  = cat0 (linear_out l a [N1]) (linear_out l b [N2]).
Proof.
  intros Ha Hb Hwf. unfold linear_out at 1.
  unfold cat0 at 2. cbn [shape linear_out app data].
  f_equal. cbn [numel fold_right]. rewrite !Nat.mul_1_r.
  rewrite Nat.mul_add_distr_r, tabulate_app. f_equal.
  - apply tabulate_ext. intros i Hi. unfold linear_entry.
    apply f_equal, rsum_ext. intros k Hk. f_equal.
    apply (rd_cat0_l a b N1 N2 _ _ _ Ha Hb Hwf).
    cbn [numel fold_right]. rewrite Nat.mul_1_r.
    assert (Hr : i / out_features l < N1) by (apply row_bound; exact Hi).
    pose proof (Nat.mul_le_mono_r (i / out_features l + 1) N1
                  (in_features l) ltac:(lia)).
    lia.
  - apply tabulate_ext. intros i Hi. unfold linear_entry.
    assert (Ho : 0 < out_features l)
      by (destruct (out_features l); [rewrite Nat.mul_0_r in Hi|]; lia).
    replace ((N1 * out_features l + i) / out_features l)
      with (N1 + i / out_features l)
      by (rewrite (Nat.add_comm (N1 * out_features l) i), Nat.div_add
            by lia; lia).
    replace ((N1 * out_features l + i) mod out_features l)
      with (i mod out_features l)
      by (rewrite (Nat.add_comm (N1 * out_features l) i),
            Nat.Div0.mod_add; reflexivity).
    apply f_equal, rsum_ext. intros k Hk. f_equal.
    replace ((N1 + i / out_features l) * in_features l + k)
      with (numel [N1; in_features l] + (i / out_features l * in_features l + k))
      by (cbn [numel fold_right]; lia).
    apply (rd_cat0_r a b N1 N2 _ _ _ Ha Hb Hwf).
Qed.

Lemma fresh_head_cat0 (theta : nat -> R) (d w : nat) (a b : Tensor)
  (N1 N2 : nat) :
  shape a = [N1; d] -> shape b = [N2; d] -> wf a ->
  exists qa qb,
    sequential_forward (fresh_head theta d w) a = Ok qa
    /\ sequential_forward (fresh_head theta d w) b = Ok qb
    /\ sequential_forward (fresh_head theta d w) (cat0 a b)
       = Ok (cat0 qa qb)
    /\ shape qa = [N1; w] /\ shape qb = [N2; w].
Proof.
  intros Ha Hb Hwf.
  assert (Hab : shape (cat0 a b) = [N1 + N2; d])
    by (unfold cat0; rewrite Ha, Hb; reflexivity).
  unfold fresh_head.
  rewrite (mlp_forward_ok _ _ _ a N1) by (try exact Ha; reflexivity).
  rewrite (mlp_forward_ok _ _ _ b N2) by (try exact Hb; reflexivity).
  rewrite (mlp_forward_ok _ _ _ (cat0 a b) (N1 + N2))
    by (try exact Hab; reflexivity).
  eexists _, _.
  refine (conj eq_refl (conj eq_refl (conj _ (conj eq_refl eq_refl)))).
  f_equal. unfold mlp_out.
  set (l1 := mkLinear theta 0 d 128).
  set (l2 := mkLinear theta (0 + linear_params d 128) 128 256).
  set (l3 := mkLinear theta
               (0 + linear_params d 128 + linear_params 128 256) 256 w).
  rewrite (linear_out_cat0 l1 a b N1 N2 Ha Hb Hwf), relu_cat0.
  rewrite (linear_out_cat0 l2 (relu (linear_out l1 a [N1]))
             (relu (linear_out l1 b [N2])) N1 N2 eq_refl eq_refl
             (wf_relu _ (wf_linear_out l1 a N1))), relu_cat0.
  rewrite (linear_out_cat0 l3 (relu (linear_out l2 _ [N1]))
             (relu (linear_out l2 _ [N2])) N1 N2 eq_refl eq_refl
             (wf_relu _ (wf_linear_out l2 _ N1))).
  reflexivity.
Qed.

(** X16.  Without convolution a constructed [VanillaDQN] treats the states
    of a batch one by one: for two batches (N1, d) and (N2, d), the first
    holding N1 * d entries, the result on the two stacked along dimension 0
    is the result on the first stacked on the result on the second. *)
Theorem vanilla_forward_is_rowwise
  (theta : nat -> R) (input_dim : list nat) (out : nat) (uc : bool)
  (m : VanillaDQN.t) (a b : Tensor) (N1 N2 d : nat) :
  VanillaDQN.init theta input_dim out uc = Ok m ->
  nth_error input_dim 0 = Some d ->
  shape a = [N1; d] -> shape b = [N2; d] ->
  wf a ->
  exists qa qb,
    VanillaDQN.forward a m = Ok (qa, m)
    /\ VanillaDQN.forward b m = Ok (qb, m)
    /\ VanillaDQN.forward (cat0 a b) m = Ok (cat0 qa qb, m)
    /\ shape qa = [N1; out] /\ shape qb = [N2; out].
Proof.
  intros Hinit Hd Ha Hb Hwf.
  destruct (vanilla_init_inv _ _ _ _ _ Hinit) as (-> & d' & rest & -> & ->).
  cbn in Hd. injection Hd as ->.
  destruct (fresh_head_cat0 theta d out a b N1 N2 Ha Hb Hwf)
    as (qa & qb & Hqa & Hqb & Hab & Hsa & Hsb).
  exists qa, qb.
  unfold VanillaDQN.forward, mbind, attr, lift, mret.
  cbn [VanillaDQN.use_conv VanillaDQN.fc].
  rewrite Hqa, Hqb, Hab. auto.
Qed.

Lemma vanilla_forward_is_rowwise_witness :
  exists qa qb,
    VanillaDQN.forward (obs 0)
      (VanillaDQN.mk [1] 2 false None (fresh_head (fun _ => 0%R) 1 2))
    = Ok (qa, VanillaDQN.mk [1] 2 false None (fresh_head (fun _ => 0%R) 1 2))
    /\ VanillaDQN.forward (obs 2)
         (VanillaDQN.mk [1] 2 false None (fresh_head (fun _ => 0%R) 1 2))
       = Ok (qb,
             VanillaDQN.mk [1] 2 false None (fresh_head (fun _ => 0%R) 1 2))
    /\ VanillaDQN.forward (cat0 (obs 0) (obs 2))
         (VanillaDQN.mk [1] 2 false None (fresh_head (fun _ => 0%R) 1 2))
       = Ok (cat0 qa qb,
             VanillaDQN.mk [1] 2 false None (fresh_head (fun _ => 0%R) 1 2))
    /\ shape qa = [1; 2] /\ shape qb = [1; 2].
Proof.
  exact (vanilla_forward_is_rowwise
           (fun _ => 0%R) [1] 2 false _ (obs 0) (obs 2) 1 1 1
           (vanilla_init_nonconv _ 1 [] 2) eq_refl eq_refl eq_refl eq_refl).
Defined.

(** ** DuelingDQN: the order of the actions *)



(** ** DistributionalDQN: the length of the support, atom count by atom
    count *)

Lemma support_length_init (theta : nat -> R) (d : nat) (rest : list nat)
  (A n : nat) (Vmin Vmax : float) (k : nat) :
  support_length n Vmin Vmax = Ok k ->
  exists m,
    DistributionalDQN.init theta (d :: rest) A false n Vmin Vmax = Ok m
    /\ DistributionalDQN.n_atoms m = n
    /\ shape (DistributionalDQN.support m) = [k].
Proof.
  unfold support_length. intros H.
  destruct (float_div _ _) as [dz|e] eqn:Hdz; [|discriminate].
  cbn [bind] in H.
  rewrite (distributional_init_nonconv theta d rest A n Vmin Vmax dz k
             Hdz H).
  eexists. repeat split.
Qed.

Lemma default_support_lengths_checked :
  forallb (fun n =>
             match support_length n (-10)%float 10%float with
             | Ok k => k =? default_support_entries n
             | Err _ => false
             end) (seq 2 199) = true.
Proof. vm_compute. reflexivity. Qed.

(** X18.  With the default value range [-10, 10] and any atom count from 2
    to 200, the constructor (without convolution) returns a model whose
    support has [n_atoms] entries, except for 25 atom counts (12, 15, 16,
    20, 39, 61, ...; the default 51 is not among them), for which the
    binary64 rounding of the spacing gives the support [n_atoms + 1]
    entries. *)
Theorem default_support_has_n_atoms_or_one_more
  (theta : nat -> R) (d : nat) (rest : list nat) (A n : nat) :
  2 <= n <= 200 ->
  exists m,
    DistributionalDQN.init theta (d :: rest) A false n (-10)%float 10%float
    = Ok m
    /\ DistributionalDQN.n_atoms m = n
    /\ shape (DistributionalDQN.support m) = [default_support_entries n].
Proof.
  intros Hn.
  pose proof default_support_lengths_checked as Hall.
  rewrite forallb_forall in Hall.
  specialize (Hall n ltac:(apply in_seq; lia)).
  destruct (support_length n (-10)%float 10%float) as [k|e] eqn:Hk;
    [|discriminate].
  apply Nat.eqb_eq in Hall. subst k.
  exact (support_length_init theta d rest A n _ _ _ Hk).
Qed.

Lemma default_support_has_n_atoms_or_one_more_witness :
  exists m,
    DistributionalDQN.init (fun _ => 0%R) [4] 2 false 51
      (-10)%float 10%float = Ok m
    /\ DistributionalDQN.n_atoms m = 51
    /\ shape (DistributionalDQN.support m) = [default_support_entries 51].
Proof.
  exact (default_support_has_n_atoms_or_one_more
           (fun _ => 0%R) 4 [] 2 51
           (conj (proj1 (Nat.leb_le 2 51) eq_refl)
                 (proj1 (Nat.leb_le 51 200) eq_refl))).
Defined.

(** ** States that [forward] rejects *)

(** X19.  Without convolution a constructed [DistributionalDQN] rejects,
    with RuntimeError, a batch (B, w) whose rows do not have the width
    [input_dim[0]] (the head fails) and the empty batch (B = 0: the
    reshaping [view(0, -1, n_atoms)] cannot infer the number of
    actions). *)
Theorem distributional_forward_rejects_other_widths_and_empty_batches
  (theta : nat -> R) (input_dim : list nat) (A n : nat) (Vmin Vmax : float)
  (m : DistributionalDQN.t) (state : Tensor) (B d w : nat) :
  DistributionalDQN.init theta input_dim A false n Vmin Vmax = Ok m ->
  nth_error input_dim 0 = Some d ->
  shape state = [B; w] ->
  w <> d \/ B = 0 ->
  DistributionalDQN.forward state m = Err RuntimeError.
Proof.
  intros Hinit Hd Hst Hbad.
  destruct (distributional_init_nonconv_inv _ _ _ _ _ _ _ Hinit)
    as (d' & rest & dz & k & -> & ->).
  cbn in Hd. injection Hd as ->.
  unfold DistributionalDQN.forward, mbind, attr, lift, mret.
  rewrite (size0 state B [w] Hst).
  cbn [DistributionalDQN.use_conv DistributionalDQN.fc
       DistributionalDQN.n_atoms].
  destruct (Nat.eq_dec w d) as [->|Hw].
  - destruct Hbad as [Hw | ->]; [contradiction|].
    destruct (fresh_head_ok theta d (A * n) state 0 Hst) as (y & Hy & _).
    rewrite Hy. reflexivity.
  - now rewrite (fresh_head_mismatch theta d (A * n) state [B] w Hst Hw).
Qed.

Lemma distributional_forward_rejects_other_widths_and_empty_batches_witness :
  DistributionalDQN.forward (zeros [0; 1]) distributional_example
  = Err RuntimeError.
Proof.
  exact (distributional_forward_rejects_other_widths_and_empty_batches
           (fun _ => (-1)%R) [1] 1 2 0%float 1%float
           distributional_example (zeros [0; 1]) 0 1 1
           distributional_example_init eq_refl eq_refl
           (or_intror eq_refl)).
Defined.

(** X20.  A constructed [RecurrentDQN] rejects, with RuntimeError, a batch
    (N, w) whose rows do not have the width [input_dim[0]], whatever the
    hidden state passed with it: the first layer fails before the hidden
    state is looked at. *)
Theorem recurrent_forward_rejects_other_widths
  (theta : nat -> R) (input_dim : list nat) (gs out : nat) (uc : bool)
  (m : RecurrentDQN.t) (state hidden : Tensor) (N d w : nat) :
  RecurrentDQN.init theta input_dim gs out uc = Ok m ->
  nth_error input_dim 0 = Some d ->
  shape state = [N; w] ->
  w <> d ->
  RecurrentDQN.forward state hidden m = Err RuntimeError.
Proof.
  intros Hinit Hd Hst Hw.
  destruct (recurrent_init_inv _ _ _ _ _ _ Hinit)
    as (-> & d' & rest & -> & ->).
  cbn in Hd. injection Hd as ->.
  unfold RecurrentDQN.forward, mbind, attr, lift, mret.
  cbn [RecurrentDQN.use_conv RecurrentDQN.linear1 recurrent_fresh].
  now rewrite (linear_forward_mismatch (mkLinear theta 0 d gs)
                 state [N] w Hst Hw).
Qed.

Lemma recurrent_forward_rejects_other_widths_witness :
  RecurrentDQN.forward (zeros [1; 3]) (zeros [1; 8])
    (recurrent_fresh (fun _ => 0%R) 4 [] 8 2)
  = Err RuntimeError.
Proof.
  exact (recurrent_forward_rejects_other_widths
           (fun _ => 0%R) [4] 8 2 false _ (zeros [1; 3]) (zeros [1; 8])
           1 4 3 (recurrent_init_nonconv _ 4 [] 8 2) eq_refl eq_refl
           ltac:(discriminate)).
Defined.
